(** * b3rb_ros_line_follower: the LineFollower node

    Shallow embedding of [b3rb_ros_line_follower/b3rb_ros_line_follower.py].

    Numbers.  The node computes on Python floats.  They are idealised here as
    exact rationals ([Q]): every literal is the decimal the source writes,
    [+ - * /] are exact, comparisons are the order of [Q]; rounding, NaN and
    the infinities are outside the model.  Python's true division raises
    [ZeroDivisionError] on a zero divisor; that is kept ([py_div]), while a
    division by a non-zero literal is written [/].  Equality of computed
    numbers is [Qeq] ([==]).

    State.  The instance members the callbacks read and write are the fields
    of [LineFollower]; a callback takes the node and a message and returns
    an [Outcome]: the node afterwards, with the [Joy] message it published
    on /cerebri/in/joy if any, or the exception it raised. *)

From Stdlib Require Import QArith Qround Qpower ZArith List Bool Lia Lqa.
Import ListNotations.

Open Scope Q_scope.

(** ** Python primitives *)

Definition Qltb (a b : Q) : bool := negb (Qle_bool b a).

(** [a / b] on floats: raises [ZeroDivisionError] when [b] is zero. *)
Definition py_div (a b : Q) : option Q :=
  if Qeq_bool b 0 then None else Some (a / b).

(** [int(q)]: truncation toward zero. *)
Definition py_int (q : Q) : Z :=
  if Qle_bool 0 q then Qfloor q else Qceiling q.

(** A slice bound [i] of a sequence of length [n]: a negative bound counts
    from the end, and the result is clamped to [0, n]. *)
Definition slice_bound (n : nat) (i : Z) : nat :=
  if (i <? 0)%Z then Z.to_nat (i + Z.of_nat n) else Nat.min (Z.to_nat i) n.

(** [l[a:b]]. *)
Definition py_slice {A} (l : list A) (a b : Z) : list A :=
  let lo := slice_bound (length l) a in
  let hi := slice_bound (length l) b in
  firstn (hi - lo) (skipn lo l).

(** [l[a:]]. *)
Definition py_slice_from {A} (l : list A) (a : Z) : list A :=
  skipn (slice_bound (length l) a) l.

(** ** Module constants (lines 31-52) *)

Definition TURN_MIN : Q := 0.0.
Definition TURN_MAX : Q := 1.0.
Definition SPEED_MIN : Q := 0.0.
Definition SPEED_MAX : Q := 1.0.
Definition SPEED_25_PERCENT : Q := SPEED_MAX / 4.
Definition SPEED_50_PERCENT : Q := SPEED_25_PERCENT * 2.
Definition SPEED_75_PERCENT : Q := SPEED_25_PERCENT * 3.

Definition THRESHOLD_OBSTACLE_VERTICAL : Q := 1.0.
Definition THRESHOLD_OBSTACLE_HORIZONTAL : Q := 0.25 / 2.

Definition SPEED_MULT_DEFAULT : Q := 1.0.

Definition MIN_POINTS_FOR_GROUND : nat := 10.
Definition R_SQUARED_THRESHOLD : Q := 0.9.

(** ** Messages *)

(** geometry_msgs/Point. *)
Record Point := mkPoint { x : Q; y : Q; z : Q }.

(** synapse_msgs/EdgeVectors: [vector_1] and [vector_2] are arrays of two
    points, indices 0 and 1. *)
Record EdgeVectors := mkEdgeVectors {
  image_width : Q;
  vector_count : Z;
  vector_1 : Point * Point;
  vector_2 : Point * Point
}.

(** synapse_msgs/TrafficStatus. *)
Record TrafficStatus := mkTrafficStatus { stop_sign : bool }.

(** sensor_msgs/LaserScan, the fields the node reads. *)
Record LaserScan := mkLaserScan {
  ranges : list Q;
  range_min : Q;
  range_max : Q;
  angle_increment : Q
}.

(** sensor_msgs/Joy. *)
Record Joy := mkJoy { buttons : list Z; axes : list Q }.

(** ** The node *)

(** What [self.ramp_detected] can hold: Python's [True] or [False], which
    lines 94 and 229 assign, or the [numpy.bool_] that [r_squared > 0.9] is
    at line 227 when [reg.score] returns a [numpy.float64].
    [self.obstacle_detected] is only ever assigned the literals and
    [traffic_status.stop_sign] is a message field of type bool: both are
    Python booleans, for which [flag is True] is the flag itself. *)
Inductive PyFlag := PyBool (b : bool) | NumpyBool (b : bool).

(** The truth value of a flag. *)
Definition truth (f : PyFlag) : bool :=
  match f with PyBool b | NumpyBool b => b end.

(** [f is True]: identity with Python's [True], which no [numpy.bool_] has. *)
Definition is_True (f : PyFlag) : bool :=
  match f with PyBool true => true | _ => false end.

(** [a > b], a [numpy.bool_] when [a] is a [numpy.float64] and a Python
    boolean when it is a Python float. *)
Definition greater (numpy : bool) (a b : Q) : PyFlag :=
  if numpy then NumpyBool (Qltb b a) else PyBool (Qltb b a).

Record LineFollower := mkLineFollower {
  traffic_status : TrafficStatus;
  obstacle_detected : bool;
  ramp_detected : PyFlag;
  speed_mult : Q;
  prev_turn : Q
}.

(** [__init__], lines 90-98. *)
Definition init : LineFollower :=
  {| traffic_status := mkTrafficStatus false;
     obstacle_detected := false;
     ramp_detected := PyBool false;
     speed_mult := SPEED_MULT_DEFAULT;
     prev_turn := TURN_MIN |}.

Inductive Outcome :=
| Published (self : LineFollower) (msg : Joy)
| Returned (self : LineFollower)
| ZeroDivisionError (self : LineFollower).

Definition node_of (o : Outcome) : LineFollower :=
  match o with
  | Published self _ | Returned self | ZeroDivisionError self => self
  end.

Definition with_speed_mult (self : LineFollower) (m : Q) : LineFollower :=
  {| traffic_status := traffic_status self;
     obstacle_detected := obstacle_detected self;
     ramp_detected := ramp_detected self;
     speed_mult := m;
     prev_turn := prev_turn self |}.

Definition with_prev_turn (self : LineFollower) (t : Q) : LineFollower :=
  {| traffic_status := traffic_status self;
     obstacle_detected := obstacle_detected self;
     ramp_detected := ramp_detected self;
     speed_mult := speed_mult self;
     prev_turn := t |}.

Definition with_ramp_detected (self : LineFollower) (b : PyFlag) : LineFollower :=
  {| traffic_status := traffic_status self;
     obstacle_detected := obstacle_detected self;
     ramp_detected := b;
     speed_mult := speed_mult self;
     prev_turn := prev_turn self |}.

Definition with_obstacle_detected (self : LineFollower) (b : bool) : LineFollower :=
  {| traffic_status := traffic_status self;
     obstacle_detected := b;
     ramp_detected := ramp_detected self;
     speed_mult := speed_mult self;
     prev_turn := prev_turn self |}.

Definition with_traffic_status (self : LineFollower) (t : TrafficStatus) : LineFollower :=
  {| traffic_status := t;
     obstacle_detected := obstacle_detected self;
     ramp_detected := ramp_detected self;
     speed_mult := speed_mult self;
     prev_turn := prev_turn self |}.

(** [rover_move_manual_mode], lines 111-118: the message it publishes. *)
Definition rover_move_manual_mode (speed turn : Q) : Joy :=
  {| buttons := [1; 0; 0; 0; 0; 0; 0; 1]%Z;
     axes := [0.0; speed; 0.0; turn] |}.

(** ** edge_vectors_callback *)

(** The values of [self], [speed] and [turn] carried from one statement of
    the callback to the next. *)
Record Frame := mkFrame { f_self : LineFollower; f_speed : Q; f_turn : Q }.

(** Lines 142-154, the body of [if (vectors.vector_count == 1)]. *)
Definition curve (vectors : EdgeVectors) (fr : Frame) : option Frame :=
  let self := f_self fr in
  let deviation := x (snd (vector_1 vectors)) - x (fst (vector_1 vectors)) in
  match py_div deviation (image_width vectors) with
  | None => None
  | Some turn =>
    let self :=
      if Qltb turn (prev_turn self) && Qltb (speed_mult self) 1.5
      then with_speed_mult self (speed_mult self + 0.03)
      else if Qle_bool (prev_turn self) turn && Qltb 0.5 (speed_mult self)
      then with_speed_mult self (speed_mult self - 0.03)
      else self in
    let speed := (1.5 * TURN_MAX - turn) / (1.5 * TURN_MAX) in
    let speed := speed * speed_mult self in
    let self := with_prev_turn self turn in
    Some (mkFrame self speed turn)
  end.

(** Lines 158-167, the body of [if (vectors.vector_count == 2)]. *)
Definition straight (vectors : EdgeVectors) (half_width : Q) (fr : Frame)
  : option Frame :=
  let self := f_self fr in
  let middle_x_left :=
    (x (fst (vector_1 vectors)) + x (snd (vector_1 vectors))) / 2 in
  let middle_x_right :=
    (x (fst (vector_2 vectors)) + x (snd (vector_2 vectors))) / 2 in
  let middle_x := (middle_x_left + middle_x_right) / 2 in
  let deviation := half_width - middle_x in
  match py_div deviation half_width with
  | None => None
  | Some turn =>
    let self :=
      with_speed_mult self ((SPEED_MULT_DEFAULT + speed_mult self) / 2) in
    let self := with_prev_turn self TURN_MIN in
    Some (mkFrame self (f_speed fr) turn)
  end.

(** Lines 169-181: the three override checks, in the order of the source.
    Each is an identity test [flag is True]; for [self.ramp_detected], which
    can hold a [numpy.bool_], it is [is_True]. *)
Definition overrides (fr : Frame) : Frame :=
  let self := f_self fr in
  let speed := f_speed fr in
  let speed := if stop_sign (traffic_status self) then SPEED_MIN else speed in
  let speed :=
    if is_True (ramp_detected self) then SPEED_50_PERCENT else speed in
  let speed := if obstacle_detected self then SPEED_25_PERCENT else speed in
  mkFrame self speed (f_turn fr).

(** Lines 132-167: the frame reached at line 168, or [None] when a division
    raised; nothing of [self] has been assigned before either division.
    The two [if]s are tested one after the other, as in the source; the
    [if (vectors.vector_count == 0): pass] of line 139 does nothing. *)
Definition lane_deviation (self : LineFollower) (message : EdgeVectors)
  : option Frame :=
  let speed := SPEED_MAX in
  let turn := TURN_MIN in
  let vectors := message in
  let half_width := image_width vectors / 2 in
  let fr := mkFrame self speed turn in
  match (if (vector_count vectors =? 1)%Z then curve vectors fr else Some fr) with
  | None => None
  | Some fr =>
    if (vector_count vectors =? 2)%Z then straight vectors half_width fr
    else Some fr
  end.

(** Lines 131-183. *)
Definition edge_vectors_callback (self : LineFollower) (message : EdgeVectors)
  : Outcome :=
  match lane_deviation self message with
  | None => ZeroDivisionError self
  | Some fr =>
    let fr := overrides fr in
    Published (f_self fr) (rover_move_manual_mode (f_speed fr) (f_turn fr))
  end.

(** [traffic_status_callback], lines 193-194. *)
Definition traffic_status_callback (self : LineFollower) (message : TrafficStatus)
  : Outcome :=
  Returned (with_traffic_status self message).

(** ** numpy and scikit-learn, as [lidar_callback] uses them

    Arrays are lists.  [np.cos] and [np.sin] are parameters of the development
    (a binary64 cosine is some rational-valued function; nothing about it is
    assumed).  [math.pi] and [math.atan(4 / 1)] are the binary64 constants
    they denote, which are rationals. *)

Definition math_pi : Q := 884279719003555 # 281474976710656.

(** [math.atan(shield_vertical / shield_horizontal)] with the two locals
    4 and 1 of lines 207-208: the binary64 value 1.3258176636680326. *)
Definition math_atan_shield : Q := 5970951936056573 # 4503599627370496.

Definition Qsum (l : list Q) : Q := fold_right Qplus 0 l.

(** [float(len(l))]. *)
Definition Qlen {A} (l : list A) : Q := inject_Z (Z.of_nat (length l)).

(** [np.mean(l)]. *)
Definition np_mean (l : list Q) : Q := Qsum l / Qlen l.

(** [np.arange(n)]. *)
Definition np_arange (n : nat) : list Q :=
  map (fun i => inject_Z (Z.of_nat i)) (seq 0 n).

(** [a * s] for an array [a] and a scalar [s]. *)
Definition np_scale (a : list Q) (s : Q) : list Q := map (fun v => v * s) a.

(** [a * b] for two arrays of one length. *)
Definition np_mul (a b : list Q) : list Q :=
  map (fun p => fst p * snd p) (combine a b).

Definition sq (q : Q) : Q := q * q.

(** [LinearRegression().fit(x.reshape(-1, 1), y)] with one feature and the
    default [fit_intercept=True]: ordinary least squares on the centred data,
    [(coef_, intercept_)].  When every [x] is the same the centred system is
    zero and the least-norm solution the solver returns is [coef_ = 0]. *)
Definition LinearRegression_fit (xs ys : list Q) : Q * Q :=
  let x_mean := np_mean xs in
  let y_mean := np_mean ys in
  let sxx := Qsum (map (fun v => sq (v - x_mean)) xs) in
  let sxy :=
    Qsum (map (fun p => (fst p - x_mean) * (snd p - y_mean)) (combine xs ys)) in
  let coef := if Qeq_bool sxx 0 then 0 else sxy / sxx in
  (coef, y_mean - coef * x_mean).

(** [reg.predict]. *)
Definition predict (reg : Q * Q) (xs : list Q) : list Q :=
  map (fun v => fst reg * v + snd reg) xs.

(** [r2_score(y, y_pred)]: [1 - u / v] with [u] the residual sum of squares
    and [v] the total sum of squares; 1.0 when [u] is zero, 0.0 when only
    [v] is. *)
Definition r2_score (ys preds : list Q) : Q :=
  let u := Qsum (map (fun p => sq (fst p - snd p)) (combine ys preds)) in
  let v := Qsum (map (fun v => sq (v - np_mean ys)) ys) in
  if Qeq_bool u 0 then 1.0
  else if Qeq_bool v 0 then 0.0
  else 1 - u / v.

(** [reg.score(x.reshape(-1, 1), y)]. *)
Definition score (reg : Q * Q) (xs ys : list Q) : Q :=
  r2_score ys (predict reg xs).

(** The residual sum of squares of the line [y = a * x + b] with
    [reg = (a, b)] over a list of points. *)
Definition sse (reg : Q * Q) (ps : list (Q * Q)) : Q :=
  Qsum (map (fun p => sq (snd p - (fst reg * fst p + snd reg))) ps).

(** ** lidar_callback *)

(** The two places where [lidar_callback] returns with the flag set, named
    by what each prints. *)
Inductive Hit := frontobj | sideobj.

(** A loop [for i in range(len(rs)): if rs[i] < threshold: ... return]:
    [true] when it returns from inside. *)
Fixpoint hits (threshold : Q) (rs : list Q) : bool :=
  match rs with
  | [] => false
  | r :: rs' => if Qltb r threshold then true else hits threshold rs'
  end.

(** Lines 249-256: the same loop over each of the lists in turn. *)
Fixpoint hits_any (threshold : Q) (lists : list (list Q)) : bool :=
  match lists with
  | [] => false
  | rs :: lists' =>
    if hits threshold rs then true else hits_any threshold lists'
  end.

(** Lines 212-216: the valid readings, then their middle half. *)
Definition preprocess (message : LaserScan) : list Q :=
  let valid_ranges :=
    filter (fun r => Qle_bool (range_min message) r && Qltb r (range_max message))
           (ranges message) in
  let length := Qlen valid_ranges in
  py_slice valid_ranges (py_int (length / 4)) (py_int (3 * length / 4)).

(** Lines 234-236: [(front_ranges, side_ranges_right, side_ranges_left)]. *)
Definition sectors (ranges : list Q) : list Q * list Q * list Q :=
  let theta := math_atan_shield in
  let length := Qlen ranges in
  let front_ranges :=
    py_slice ranges (py_int (length * theta / math_pi))
                    (py_int (length * (math_pi - theta) / math_pi)) in
  let side_ranges_right :=
    py_slice ranges 0 (py_int (length * theta / math_pi)) in
  let side_ranges_left :=
    py_slice_from ranges (py_int (length * (math_pi - theta) / math_pi)) in
  (front_ranges, side_ranges_right, side_ranges_left).

(** Lines 238-258: the return the scan of the sectors takes, [None] for the
    last line. *)
Definition obstacle_scan (ranges : list Q) : option Hit :=
  let '(front_ranges, side_ranges_right, side_ranges_left) := sectors ranges in
  if hits THRESHOLD_OBSTACLE_VERTICAL front_ranges then Some frontobj
  else
    let side_ranges_left := rev side_ranges_left in
    if hits_any THRESHOLD_OBSTACLE_HORIZONTAL [side_ranges_left; side_ranges_right]
    then Some sideobj
    else None.

Section Lidar.

Variables np_cos np_sin : Q -> Q.

(** Whether [reg.score] returns a [numpy.float64] (scikit-learn 1.4) or a
    Python float: the source does not fix the version. *)
Variable numpy_score : bool.

(** Lines 220-222: [(x, y)]. *)
Definition cartesian (ranges : list Q) (angle_increment : Q)
  : list Q * list Q :=
  let angles := np_scale (np_arange (length ranges)) angle_increment in
  (np_mul ranges (map np_cos angles), np_mul ranges (map np_sin angles)).

(** Lines 224-225. *)
Definition r_squared (ranges : list Q) (angle_increment : Q) : Q :=
  let '(x, y) := cartesian ranges angle_increment in
  let reg := LinearRegression_fit x y in
  score reg x y.

(** Lines 205-258. *)
Definition lidar_callback (self : LineFollower) (message : LaserScan)
  : Outcome :=
  let ranges := preprocess message in
  let self :=
    if (MIN_POINTS_FOR_GROUND <=? length ranges)%nat
    then with_ramp_detected self
           (greater numpy_score (r_squared ranges (angle_increment message))
                    R_SQUARED_THRESHOLD)
    else with_ramp_detected self (PyBool false) in
  let self := with_obstacle_detected self false in
  match obstacle_scan ranges with
  | Some _ => Returned (with_obstacle_detected self true)
  | None => Returned (with_obstacle_detected self false)
  end.

(** ** The node under [rclpy.spin] *)

Inductive Message :=
| OnEdgeVectors (message : EdgeVectors)
| OnTrafficStatus (message : TrafficStatus)
| OnScan (message : LaserScan).

Definition dispatch (self : LineFollower) (m : Message) : Outcome :=
  match m with
  | OnEdgeVectors message => edge_vectors_callback self message
  | OnTrafficStatus message => traffic_status_callback self message
  | OnScan message => lidar_callback self message
  end.

(** The callbacks run one at a time, in the order the messages arrive; an
    exception leaves [spin] and ends the node. *)
Fixpoint spin (self : LineFollower) (ms : list Message) : LineFollower :=
  match ms with
  | [] => self
  | m :: ms' =>
    match dispatch self m with
    | ZeroDivisionError self' => self'
    | o => spin (node_of o) ms'
    end
  end.

End Lidar.

(** ** What a callback emitted *)

(** [msg.axes[1]] and [msg.axes[3]] of the published message. *)
Definition emitted_speed (o : Outcome) : option Q :=
  match o with
  | Published _ msg => nth_error (axes msg) 1
  | _ => None
  end.

Definition emitted_turn (o : Outcome) : option Q :=
  match o with
  | Published _ msg => nth_error (axes msg) 3
  | _ => None
  end.

(** The turn as section 4.4 of the specification words it, from the message
    alone: neutral for no line, the endpoint delta over the width for one
    edge, the deviation of the mean midpoint over the half width for two;
    [None] where the normalisation divides by zero. *)
Definition spec_turn (message : EdgeVectors) : option Q :=
  let x1 := x (fst (vector_1 message)) in
  let x2 := x (snd (vector_1 message)) in
  let u1 := x (fst (vector_2 message)) in
  let u2 := x (snd (vector_2 message)) in
  let half_width := image_width message / 2 in
  if (vector_count message =? 1)%Z then
    py_div (x2 - x1) (image_width message)
  else if (vector_count message =? 2)%Z then
    py_div (half_width - ((x1 + x2) / 2 + (u1 + u2) / 2) / 2) half_width
  else Some TURN_MIN.

(** ** Concrete inputs *)

Definition origin : Point := mkPoint 0 0 0.

Definition at_x (v : Q) : Point := mkPoint v 0 0.

(** One edge leaning from the right border to the left one. *)
Definition curve_full_left : EdgeVectors :=
  mkEdgeVectors 2 1 (at_x 2, at_x 0) (origin, origin).

(** One edge with [k] of 17 pixels of lean toward the left. *)
Definition curve_lean (k : Z) : EdgeVectors :=
  mkEdgeVectors 17 1 (at_x (inject_Z k), at_x 0) (origin, origin).

(** One upright edge. *)
Definition curve_upright : EdgeVectors :=
  mkEdgeVectors 17 1 (at_x 5, at_x 5) (origin, origin).

(** One edge in an image of width zero. *)
Definition curve_no_width : EdgeVectors :=
  mkEdgeVectors 0 1 (at_x 0, at_x 0) (origin, origin).

(** Two edges, mirror images about the centre of a 640 pixel image. *)
Definition straight_centred : EdgeVectors :=
  mkEdgeVectors 640 2 (at_x 100, at_x 200) (at_x 540, at_x 440).

Definition all_flags : LineFollower :=
  {| traffic_status := mkTrafficStatus true;
     obstacle_detected := true;
     ramp_detected := NumpyBool true;
     speed_mult := SPEED_MULT_DEFAULT;
     prev_turn := TURN_MIN |}.

Definition at_stop_sign : LineFollower :=
  with_traffic_status init (mkTrafficStatus true).

(** Stand-ins for [np.cos] and [np.sin] where a run needs some: the Taylor
    polynomials of degree two and one, exact at angle 0. *)
Definition cos_poly (a : Q) : Q := 1 - a * a / 2.
Definition sin_poly (a : Q) : Q := a.

(** Seventeen single edges, each leaning further left than the one before. *)
Definition straightening : list Message :=
  map (fun k => OnEdgeVectors (curve_lean (Z.of_nat k))) (seq 1 17).

(** The same upright edge seventeen times. *)
Definition upright_run : list Message :=
  repeat (OnEdgeVectors curve_upright) 17.

(** Eighteen valid readings on a straight wall, of which the middle nine
    are kept. *)
Definition scan_short : LaserScan :=
  mkLaserScan (map (fun i => inject_Z (Z.of_nat i)) (seq 1 18)) 0 100 0.

(** Forty valid readings taken with a zero angle increment: the middle
    twenty are kept, and all fall on the axis y = 0. *)
Definition scan_wall : LaserScan :=
  mkLaserScan (map (fun i => inject_Z (Z.of_nat i)) (seq 1 40)) 0 100 0.

(** No line seen, in an image whose width is given as zero. *)
Definition no_line : EdgeVectors :=
  mkEdgeVectors 0 0 (origin, origin) (origin, origin).

(** One edge leaning a quarter of a 640 pixel image to the left, and one
    leaning half of it. *)
Definition curve_quarter : EdgeVectors :=
  mkEdgeVectors 640 1 (at_x 400, at_x 240) (origin, origin).

Definition curve_half : EdgeVectors :=
  mkEdgeVectors 640 1 (at_x 480, at_x 160) (origin, origin).

(** Line 212: the readings within [range_min, range_max), which
    [preprocess] slices. *)
Definition valid_ranges (message : LaserScan) : list Q :=
  filter (fun r => Qle_bool (range_min message) r && Qltb r (range_max message))
         (ranges message).

(** Whether a message is a scan. *)
Definition is_scan (m : Message) : bool :=
  match m with OnScan _ => true | _ => false end.

(** Whether a message is an edge-vector message, a traffic status. *)
Definition is_edge_vectors (m : Message) : bool :=
  match m with OnEdgeVectors _ => true | _ => false end.

Definition is_traffic_status (m : Message) : bool :=
  match m with OnTrafficStatus _ => true | _ => false end.

(** A stop sign, an edge message, the stop sign lifted, another edge. *)
Definition lane_traffic : list Message :=
  [OnTrafficStatus (mkTrafficStatus true); OnEdgeVectors curve_quarter;
   OnTrafficStatus (mkTrafficStatus false); OnEdgeVectors straight_centred].

(** Forty readings on a wall 3.0 away, with one at 0.1 among those kept. *)
Definition scan_near : LaserScan :=
  mkLaserScan (repeat 3.0 12 ++ [0.1] ++ repeat 3.0 27) 0.05 12 0.01.

(** Forty readings of a scanner that reports nothing closer than 0.15, with
    one at 0.5 in the front sector of those kept. *)
Definition scan_front : LaserScan :=
  mkLaserScan (repeat 3.0 20 ++ [0.5] ++ repeat 3.0 19) 0.15 12 0.01.

(** One valid reading among invalid ones. *)
Definition scan_sparse : LaserScan :=
  mkLaserScan [0; 0.5; 40; 50] 0.15 12 0.01.

(** Whether a message is an edge-vector message with two vectors and a
    non-zero width. *)
Definition is_two_edges (m : Message) : bool :=
  match m with
  | OnEdgeVectors message =>
    (vector_count message =? 2)%Z && negb (Qeq_bool (image_width message) 0)
  | _ => false
  end.

(** Two edges seen left of the centre, and two seen in a narrower image. *)
Definition straight_left : EdgeVectors :=
  mkEdgeVectors 640 2 (at_x 60, at_x 150) (at_x 500, at_x 410).

Definition straight_narrow : EdgeVectors :=
  mkEdgeVectors 320 2 (at_x 40, at_x 90) (at_x 300, at_x 250).

(** Three frames of a straight stretch. *)
Definition straight_stretch : list Message :=
  [OnEdgeVectors straight_centred; OnEdgeVectors straight_left;
   OnEdgeVectors straight_narrow].

(** A stop sign, then a scan of a straight wall beyond 1.0. *)
Definition stop_then_wall : list Message :=
  [OnTrafficStatus (mkTrafficStatus true); OnScan scan_wall].

(** The bounds the multiplier does keep. *)
Definition mult_bounded (self : LineFollower) : Prop :=
  0.47 < speed_mult self /\ speed_mult self < 1.53.

(** ** Basic facts *)

Lemma Qltb_lt (a b : Q) : Qltb a b = true <-> a < b.
Proof.
  unfold Qltb. rewrite negb_true_iff. split; intro H.
  - apply Qnot_le_lt. intro Hle. apply Qle_bool_iff in Hle. congruence.
  - destruct (Qle_bool b a) eqn:E; [|reflexivity].
    apply Qle_bool_iff in E. exfalso. exact (Qlt_not_le _ _ H E).
Qed.

Lemma Qltb_ge (a b : Q) : Qltb a b = false <-> b <= a.
Proof.
  unfold Qltb. rewrite negb_false_iff. apply Qle_bool_iff.
Qed.

Lemma py_div_some (a b : Q) : ~ b == 0 -> py_div a b = Some (a / b).
Proof.
  intro H. unfold py_div. destruct (Qeq_bool b 0) eqn:E; [|reflexivity].
  apply Qeq_bool_iff in E. contradiction.
Qed.

Lemma is_True_truth (f : PyFlag) : truth f = false -> is_True f = false.
Proof. destruct f as [[|]|[|]]; cbn; congruence. Qed.

Lemma truth_greater (numpy : bool) (a b : Q) :
  truth (greater numpy a b) = Qltb b a.
Proof. destruct numpy; reflexivity. Qed.

Lemma half_zero (w : Q) : w / 2 == 0 -> w == 0.
Proof.
  intro H. setoid_replace w with (w / 2 * 2) by field. rewrite H. ring.
Qed.

(** Neither branch of the estimator touches the three flags. *)
Lemma lane_deviation_flags (self : LineFollower) (message : EdgeVectors) (fr : Frame) :
  lane_deviation self message = Some fr ->
  traffic_status (f_self fr) = traffic_status self /\
  ramp_detected (f_self fr) = ramp_detected self /\
  obstacle_detected (f_self fr) = obstacle_detected self.
Proof.
  unfold lane_deviation, curve, straight.
  destruct (vector_count message =? 1)%Z, (vector_count message =? 2)%Z; cbn;
    repeat match goal with
           | |- context [py_div ?a ?b] => destruct (py_div a b); cbn
           | |- context [if ?c then _ else _] => destruct c; cbn
           end;
    intro H; try discriminate; injection H as <-; cbn; auto.
Qed.

Lemma lane_deviation_turn (self : LineFollower) (message : EdgeVectors) :
  option_map f_turn (lane_deviation self message) = spec_turn message.
Proof.
  unfold lane_deviation, spec_turn, curve, straight.
  destruct (vector_count message =? 1)%Z eqn:E1.
  - apply Z.eqb_eq in E1. rewrite E1. cbn.
    destruct (py_div _ (image_width message)); reflexivity.
  - destruct (vector_count message =? 2)%Z; cbn; [|reflexivity].
    destruct (py_div _ (image_width message / 2)); reflexivity.
Qed.

(** The estimator raises only in a branch that divides by a zero width. *)
Lemma lane_deviation_total (self : LineFollower) (message : EdgeVectors) :
  ~ image_width message == 0 -> exists fr, lane_deviation self message = Some fr.
Proof.
  intro Hw. unfold lane_deviation, curve, straight.
  assert (Hh : ~ image_width message / 2 == 0)
    by (intro H; apply Hw; now apply half_zero).
  destruct (vector_count message =? 1)%Z eqn:E1.
  - apply Z.eqb_eq in E1. rewrite E1. cbn.
    rewrite py_div_some by assumption. eauto.
  - destruct (vector_count message =? 2)%Z; cbn; [|eauto].
    rewrite py_div_some by assumption. eauto.
Qed.

Lemma emitted_turn_estimated (self : LineFollower) (message : EdgeVectors) :
  emitted_turn (edge_vectors_callback self message)
    = option_map f_turn (lane_deviation self message).
Proof.
  unfold edge_vectors_callback.
  destruct (lane_deviation self message) as [fr|]; reflexivity.
Qed.

(** ** The overrides (lines 169-181) *)

(** The emitted speed is the value of the last check that fires. *)
Lemma emitted_speed_overrides (self : LineFollower) (message : EdgeVectors) (fr : Frame) :
  lane_deviation self message = Some fr ->
  emitted_speed (edge_vectors_callback self message) =
    Some (if obstacle_detected self then SPEED_25_PERCENT
          else if is_True (ramp_detected self) then SPEED_50_PERCENT
          else if stop_sign (traffic_status self) then SPEED_MIN
          else f_speed fr).
Proof.
  intro Hfr.
  destruct (lane_deviation_flags _ _ _ Hfr) as (Ht & Hr & Ho).
  unfold edge_vectors_callback. rewrite Hfr. cbn.
  rewrite Ht, Hr, Ho.
  destruct (obstacle_detected self), (is_True (ramp_detected self)),
    (stop_sign (traffic_status self)); reflexivity.
Qed.

(** X20.  Whenever the estimator reaches the override checks, the emitted
    speed is the value of the last check that fires: the obstacle value 0.25
    over the ramp value 0.5 over the stop-sign value 0, and the estimator's
    speed when none fires, where the ramp check fires only on Python's True.
    With the stop sign, the ramp and the obstacle all present the emitted
    speed is 0.25, whether the ramp flag holds True or a numpy.bool_. *)
Theorem override_precedence (self : LineFollower) (message : EdgeVectors) (fr : Frame) :
  lane_deviation self message = Some fr ->
  let o := edge_vectors_callback self message in
  emitted_speed o =
    Some (if obstacle_detected self then SPEED_25_PERCENT
          else if is_True (ramp_detected self) then SPEED_50_PERCENT
          else if stop_sign (traffic_status self) then SPEED_MIN
          else f_speed fr) /\
  SPEED_MIN == 0 /\ SPEED_50_PERCENT == 0.5 /\ SPEED_25_PERCENT == 0.25 /\
  (stop_sign (traffic_status self) = true ->
   truth (ramp_detected self) = true ->
   obstacle_detected self = true ->
   exists s, emitted_speed o = Some s /\ s == 0.25).
Proof.
  intros Hfr o.
  pose proof (emitted_speed_overrides self message fr Hfr) as E. fold o in E.
  split; [exact E|].
  repeat split; try reflexivity.
  intros _ _ Hobs. rewrite E, Hobs.
  exists SPEED_25_PERCENT. split; reflexivity.
Qed.

Lemma override_precedence_witness :
  exists s, emitted_speed (edge_vectors_callback all_flags straight_centred) = Some s
            /\ s == 0.25.
Proof.
  assert (Hfr : exists fr, lane_deviation all_flags straight_centred = Some fr)
    by (vm_compute; eauto).
  destruct Hfr as [fr Hfr].
  destruct (override_precedence all_flags straight_centred fr Hfr)
    as (_ & _ & _ & _ & H).
  apply H; reflexivity.
Defined.

(** C8.  The emitted turn is the turn the estimator computed before the
    override checks, whatever the three flags are; it is the turn of
    section 4.4, a function of the message alone, and the callback emits
    nothing exactly when the estimator raised. *)
Theorem overrides_keep_turn (self : LineFollower) (message : EdgeVectors) :
  emitted_turn (edge_vectors_callback self message)
    = option_map f_turn (lane_deviation self message) /\
  emitted_turn (edge_vectors_callback self message) = spec_turn message /\
  (forall stop ramp obstacle,
      let self' :=
        with_obstacle_detected
          (with_ramp_detected
             (with_traffic_status self (mkTrafficStatus stop)) ramp) obstacle in
      emitted_turn (edge_vectors_callback self' message)
        = emitted_turn (edge_vectors_callback self message)) /\
  (lane_deviation self message = None ->
   edge_vectors_callback self message = ZeroDivisionError self).
Proof.
  repeat split.
  - apply emitted_turn_estimated.
  - rewrite emitted_turn_estimated. apply lane_deviation_turn.
  - intros. rewrite !emitted_turn_estimated, !lane_deviation_turn. reflexivity.
  - intro H. unfold edge_vectors_callback. now rewrite H.
Qed.

(** ** Two edges (lines 158-167) *)

(** C7.  With two edges and a positive width the callback emits a command
    whose turn is (half_width - mean of the two midpoints) / half_width;
    when the two midpoints average to half_width the turn is 0. *)
Theorem straight_turn (self : LineFollower) (message : EdgeVectors) :
  vector_count message = 2%Z ->
  0 < image_width message ->
  let half_width := image_width message / 2 in
  let middle_x_left :=
    (x (fst (vector_1 message)) + x (snd (vector_1 message))) / 2 in
  let middle_x_right :=
    (x (fst (vector_2 message)) + x (snd (vector_2 message))) / 2 in
  let mean := (middle_x_left + middle_x_right) / 2 in
  exists turn,
    emitted_turn (edge_vectors_callback self message) = Some turn /\
    turn == (half_width - mean) / half_width /\
    (mean == half_width -> turn == 0).
Proof.
  intros Hc Hw half_width ml mr mean.
  assert (Hh : ~ half_width == 0).
  { intro H. apply half_zero in H. rewrite H in Hw. discriminate. }
  exists ((half_width - mean) / half_width).
  split; [|split].
  - rewrite emitted_turn_estimated, lane_deviation_turn.
    unfold spec_turn. rewrite Hc. cbn.
    apply py_div_some. exact Hh.
  - reflexivity.
  - intro Hm. rewrite Hm. field. exact Hh.
Qed.

Lemma straight_turn_witness :
  exists turn,
    emitted_turn (edge_vectors_callback init straight_centred) = Some turn /\
    turn == 0.
Proof.
  destruct (straight_turn init straight_centred) as (turn & He & _ & Hz).
  - reflexivity.
  - reflexivity.
  - exists turn. split; [exact He|]. apply Hz. reflexivity.
Defined.

(** ** One edge (lines 142-154) *)

(** The frame the one-edge branch leaves, spelled out. *)
Lemma lane_deviation_curve (self : LineFollower) (message : EdgeVectors) :
  vector_count message = 1%Z ->
  ~ image_width message == 0 ->
  let turn :=
    (x (snd (vector_1 message)) - x (fst (vector_1 message)))
      / image_width message in
  let m :=
    if Qltb turn (prev_turn self) && Qltb (speed_mult self) 1.5
    then speed_mult self + 0.03
    else if Qle_bool (prev_turn self) turn && Qltb 0.5 (speed_mult self)
    then speed_mult self - 0.03
    else speed_mult self in
  lane_deviation self message
    = Some (mkFrame (with_prev_turn (with_speed_mult self m) turn)
                    ((1.5 * TURN_MAX - turn) / (1.5 * TURN_MAX) * m) turn).
Proof.
  intros Hc Hw turn m. unfold lane_deviation, curve. rewrite Hc. cbn.
  rewrite py_div_some by exact Hw. fold turn. subst m.
  destruct (Qltb turn (prev_turn self) && Qltb (speed_mult self) 1.5);
    [reflexivity|].
  destruct (Qle_bool (prev_turn self) turn && Qltb 0.5 (speed_mult self));
    [reflexivity|].
  destruct self; reflexivity.
Qed.

(** C4 as stated fails twice: with a zero width the division raises and no
    turn is computed, and with the stop sign set the emitted speed is 0
    while (1.5 - turn) / 1.5 times the updated multiplier is 0.97. *)
Lemma curve_update_counterexample :
  (vector_count curve_no_width = 1%Z /\
   edge_vectors_callback init curve_no_width = ZeroDivisionError init) /\
  (vector_count curve_upright = 1%Z /\
   exists fr s,
     lane_deviation at_stop_sign curve_upright = Some fr /\
     emitted_speed (edge_vectors_callback at_stop_sign curve_upright) = Some s /\
     s == 0 /\
     (1.5 - f_turn fr) / 1.5 * speed_mult (f_self fr) == 0.97 /\
     ~ s == (1.5 - f_turn fr) / 1.5 * speed_mult (f_self fr)).
Proof.
  split; split; try reflexivity.
  eexists. eexists.
  split; [vm_compute; reflexivity|].
  split; [vm_compute; reflexivity|].
  split; [reflexivity|].
  split; [reflexivity|].
  discriminate.
Qed.

(** C4, amended.  For one edge and a non-zero width: the turn is
    (x2 - x1) / image_width; the multiplier goes up by 0.03 exactly when the
    turn is smaller than prev_turn and the multiplier is below 1.5, down by
    0.03 exactly when the turn is not smaller and the multiplier is above
    0.5, and is unchanged otherwise; the speed the branch computes is
    (1.5 - turn) / 1.5 times the updated multiplier, and it is the emitted
    speed when no stop sign, ramp or obstacle is flagged; prev_turn becomes
    the turn. *)
Theorem curve_update (self : LineFollower) (message : EdgeVectors) :
  vector_count message = 1%Z ->
  ~ image_width message == 0 ->
  let turn :=
    (x (snd (vector_1 message)) - x (fst (vector_1 message)))
      / image_width message in
  let up := turn < prev_turn self /\ speed_mult self < 1.5 in
  let down := ~ turn < prev_turn self /\ 0.5 < speed_mult self in
  exists fr,
    lane_deviation self message = Some fr /\
    node_of (edge_vectors_callback self message) = f_self fr /\
    emitted_turn (edge_vectors_callback self message) = Some turn /\
    (speed_mult (f_self fr) == speed_mult self + 0.03 <-> up) /\
    (speed_mult (f_self fr) == speed_mult self - 0.03 <-> down) /\
    (~ up -> ~ down -> speed_mult (f_self fr) = speed_mult self) /\
    f_speed fr == (1.5 - turn) / 1.5 * speed_mult (f_self fr) /\
    (stop_sign (traffic_status self) = false ->
     truth (ramp_detected self) = false ->
     obstacle_detected self = false ->
     emitted_speed (edge_vectors_callback self message) = Some (f_speed fr)) /\
    prev_turn (f_self fr) = turn.
Proof.
  intros Hc Hw turn up down.
  pose proof (lane_deviation_curve self message Hc Hw) as Hfr. cbv zeta in Hfr.
  fold turn in Hfr.
  set (m := speed_mult self) in *. set (p := prev_turn self) in *.
  assert (Hup : Qltb turn p && Qltb m 1.5 = true <-> up).
  { subst up. rewrite andb_true_iff, !Qltb_lt. reflexivity. }
  assert (Hdown : Qle_bool p turn && Qltb 0.5 m = true <-> down).
  { subst down. rewrite andb_true_iff, Qle_bool_iff, Qltb_lt.
    split; intros [H1 H2]; split; auto.
    - now apply Qle_not_lt.
    - now apply Qnot_lt_le. }
  assert (Hexcl : up -> down -> False) by (intros [H _] [H' _]; auto).
  set (m' := if Qltb turn p && Qltb m 1.5 then m + 0.03
             else if Qle_bool p turn && Qltb 0.5 m then m - 0.03 else m) in Hfr.
  assert (Hm' : (up /\ m' = m + 0.03) \/ (~ up /\ down /\ m' = m - 0.03)
                \/ (~ up /\ ~ down /\ m' = m)).
  { subst m'.
    destruct (Qltb turn p && Qltb m 1.5).
    - left. split; [now apply Hup|reflexivity].
    - assert (~ up) by (intro H; apply Hup in H; discriminate).
      destruct (Qle_bool p turn && Qltb 0.5 m).
      + right; left.
        split; [assumption|split; [now apply Hdown|reflexivity]].
      + right; right. split; [assumption|split; [|reflexivity]].
        intro H'; apply Hdown in H'; discriminate. }
  clearbody m'.
  exists (mkFrame (with_prev_turn (with_speed_mult self m') turn)
                  ((1.5 * TURN_MAX - turn) / (1.5 * TURN_MAX) * m') turn).
  cbn [f_self f_speed with_prev_turn with_speed_mult speed_mult prev_turn].
  split; [exact Hfr|].
  split; [unfold edge_vectors_callback; rewrite Hfr; reflexivity|].
  split; [rewrite emitted_turn_estimated, Hfr; reflexivity|].
  split; [|split; [|split; [|split; [|split]]]].
  - destruct Hm' as [(Hu & ->)|[(Hu & Hd & ->)|(Hu & Hd & ->)]];
      (split; [intro E|intro]); try reflexivity; try tauto; exfalso; lra.
  - destruct Hm' as [(Hu & ->)|[(Hu & Hd & ->)|(Hu & Hd & ->)]];
      (split; [intro E|intro]); try reflexivity; try tauto; exfalso; lra.
  - intros Hu Hd.
    destruct Hm' as [(Hu' & _)|[(_ & Hd' & _)|(_ & _ & ->)]];
      [contradiction|contradiction|reflexivity].
  - unfold TURN_MAX. field.
  - intros Hs Hr Ho. unfold edge_vectors_callback. rewrite Hfr. cbn.
    fold m p. rewrite Hs, (is_True_truth _ Hr), Ho. reflexivity.
  - reflexivity.
Qed.

Lemma curve_update_witness :
  exists fr,
    lane_deviation init curve_full_left = Some fr /\
    emitted_speed (edge_vectors_callback init curve_full_left)
      = Some (f_speed fr) /\
    prev_turn (f_self fr) = (0 - 2) / 2.
Proof.
  destruct (curve_update init curve_full_left)
    as (fr & Hfr & _ & _ & _ & _ & _ & _ & Hs & Hp).
  - reflexivity.
  - discriminate.
  - exists fr. split; [exact Hfr|]. split; [|exact Hp].
    apply Hs; reflexivity.
Defined.

(** ** The range of the command *)

(** X5.  The turn is within [-1, 1] whenever the width is positive and the
    endpoints lie in the image, and then a command is emitted. *)
Lemma turn_within_unit (self : LineFollower) (message : EdgeVectors) :
  0 < image_width message ->
  (forall p, In p [fst (vector_1 message); snd (vector_1 message);
                   fst (vector_2 message); snd (vector_2 message)] ->
             0 <= x p <= image_width message) ->
  exists turn,
    emitted_turn (edge_vectors_callback self message) = Some turn /\
    -1 <= turn <= 1.
Proof.
  intros Hw Hx.
  assert (Hn : ~ image_width message == 0) by (intro H; rewrite H in Hw; discriminate).
  assert (Hh : 0 < image_width message / 2) by (apply Qlt_shift_div_l; lra).
  assert (Hhn : ~ image_width message / 2 == 0) by (intro H; rewrite H in Hh; discriminate).
  pose proof (Hx _ (or_introl eq_refl)) as H1.
  pose proof (Hx _ (or_intror (or_introl eq_refl))) as H2.
  pose proof (Hx _ (or_intror (or_intror (or_introl eq_refl)))) as H3.
  pose proof (Hx _ (or_intror (or_intror (or_intror (or_introl eq_refl))))) as H4.
  rewrite emitted_turn_estimated, lane_deviation_turn. unfold spec_turn.
  set (w := image_width message) in *.
  set (x1 := x (fst (vector_1 message))) in *.
  set (x2 := x (snd (vector_1 message))) in *.
  set (u1 := x (fst (vector_2 message))) in *.
  set (u2 := x (snd (vector_2 message))) in *.
  destruct (vector_count message =? 1)%Z.
  - rewrite py_div_some by exact Hn. eexists. split; [reflexivity|].
    split.
    + apply Qle_shift_div_l; [exact Hw|lra].
    + apply Qle_shift_div_r; [exact Hw|lra].
  - destruct (vector_count message =? 2)%Z.
    + rewrite py_div_some by exact Hhn. eexists. split; [reflexivity|].
      assert (Hmid : ((x1 + x2) / 2 + (u1 + u2) / 2) / 2
                     == (x1 + x2 + u1 + u2) * (1 # 4)) by field.
      assert (Hhalf : w / 2 == w * (1 # 2)) by field.
      split.
      * apply Qle_shift_div_l; [exact Hh|]. rewrite Hmid, Hhalf. lra.
      * apply Qle_shift_div_r; [exact Hh|]. rewrite Hmid, Hhalf. lra.
    + eexists. split; [reflexivity|]. unfold TURN_MIN. split; discriminate.
Qed.

(** C1.  The speed leaves [-1, 1] on a well-formed message: from the initial
    node, one edge from the right border (x = 2) to the left one (x = 0) of
    an image of width 2 has turn -1, and the emitted speed is
    (1.5 + 1) / 1.5 * 1.03, above 1. *)
Theorem speed_leaves_unit_range :
  0 < image_width curve_full_left /\
  (forall p, In p [fst (vector_1 curve_full_left); snd (vector_1 curve_full_left)] ->
             0 <= x p <= image_width curve_full_left) /\
  exists speed turn,
    emitted_speed (edge_vectors_callback init curve_full_left) = Some speed /\
    emitted_turn (edge_vectors_callback init curve_full_left) = Some turn /\
    turn == -1 /\
    speed == (1.5 + 1) / 1.5 * 1.03 /\
    1 < speed.
Proof.
  split; [reflexivity|]. split.
  - intros p [<-|[<-|[]]]; split; discriminate.
  - eexists. eexists.
    split; [vm_compute; reflexivity|].
    split; [vm_compute; reflexivity|].
    repeat split; reflexivity.
Qed.

(** ** The multiplier (lines 146-151 and 166) *)

Lemma lane_deviation_mult (self : LineFollower) (message : EdgeVectors) (fr : Frame) :
  mult_bounded self ->
  lane_deviation self message = Some fr ->
  mult_bounded (f_self fr).
Proof.
  unfold mult_bounded. intros [Hlo Hhi].
  unfold lane_deviation, curve, straight.
  destruct (vector_count message =? 1)%Z eqn:E1.
  - apply Z.eqb_eq in E1. rewrite E1. cbn.
    destruct (py_div _ (image_width message)) as [turn|]; [|discriminate].
    destruct (Qltb turn (prev_turn self)); cbn.
    + destruct (Qltb (speed_mult self) 1.5) eqn:Em; cbn.
      * apply Qltb_lt in Em. intro H; injection H as <-; cbn. lra.
      * destruct (Qle_bool (prev_turn self) turn); cbn.
        -- destruct (Qltb 0.5 (speed_mult self)) eqn:Eh; cbn;
             intro H; injection H as <-; cbn; [apply Qltb_lt in Eh; lra|lra].
        -- intro H; injection H as <-; cbn. lra.
    + destruct (Qle_bool (prev_turn self) turn); cbn.
      * destruct (Qltb 0.5 (speed_mult self)) eqn:Eh; cbn;
          intro H; injection H as <-; cbn; [apply Qltb_lt in Eh; lra|lra].
      * intro H; injection H as <-; cbn. lra.
  - destruct (vector_count message =? 2)%Z; cbn.
    + destruct (py_div _ (image_width message / 2)); [|discriminate].
      intro H; injection H as <-; cbn. unfold SPEED_MULT_DEFAULT. split.
      * apply Qlt_shift_div_l; [reflexivity|lra].
      * apply Qlt_shift_div_r; [reflexivity|lra].
    + intro H; injection H as <-; cbn. lra.
Qed.

Lemma edge_vectors_callback_mult (self : LineFollower) (message : EdgeVectors) :
  mult_bounded self -> mult_bounded (node_of (edge_vectors_callback self message)).
Proof.
  intro H. unfold edge_vectors_callback.
  destruct (lane_deviation self message) as [fr|] eqn:E; cbn; [|exact H].
  exact (lane_deviation_mult self message fr H E).
Qed.

Section Spin.

Variables np_cos np_sin : Q -> Q.
Variable numpy_score : bool.

Lemma lidar_callback_mult (self : LineFollower) (message : LaserScan) :
  speed_mult (node_of (lidar_callback np_cos np_sin numpy_score self message))
    = speed_mult self.
Proof.
  unfold lidar_callback.
  destruct (obstacle_scan (preprocess message));
    destruct (MIN_POINTS_FOR_GROUND <=? length (preprocess message))%nat;
    reflexivity.
Qed.

Lemma dispatch_mult (self : LineFollower) (m : Message) :
  mult_bounded self -> mult_bounded (node_of (dispatch np_cos np_sin numpy_score self m)).
Proof.
  intro H. destruct m as [message|message|message]; cbn [dispatch].
  - now apply edge_vectors_callback_mult.
  - exact H.
  - unfold mult_bounded. rewrite lidar_callback_mult. exact H.
Qed.

Lemma spin_mult (ms : list Message) (self : LineFollower) :
  mult_bounded self -> mult_bounded (spin np_cos np_sin numpy_score self ms).
Proof.
  revert self. induction ms as [|m ms IH]; intros self H; cbn [spin].
  - exact H.
  - pose proof (dispatch_mult self m H) as Hd.
    destruct (dispatch np_cos np_sin numpy_score self m); cbn [node_of] in *;
      [apply IH; exact Hd|apply IH; exact Hd|exact Hd].
Qed.

End Spin.

(** C2 as stated fails: seventeen single edges, each with a smaller turn
    than the one before, take the multiplier from 1.0 to 1.51, and the same
    upright edge seventeen times takes it to 0.49. *)
Lemma speed_mult_counterexample :
  (speed_mult (spin cos_poly sin_poly true init straightening) == 1.51 /\
   1.5 < speed_mult (spin cos_poly sin_poly true init straightening)) /\
  (speed_mult (spin cos_poly sin_poly true init upright_run) == 0.49 /\
   speed_mult (spin cos_poly sin_poly true init upright_run) < 0.5).
Proof.
  repeat split; vm_compute; reflexivity.
Qed.

(** C2, amended.  From the initial node, after any sequence of messages
    (edge vectors, scans, traffic status) the multiplier is strictly between
    0.47 and 1.53: an update of 0.03 fires only from below 1.5 or from above
    0.5, and averaging with 1.0 keeps the interval. *)
Theorem speed_mult_bounded (np_cos np_sin : Q -> Q) (numpy_score : bool) (ms : list Message) :
  0.47 < speed_mult (spin np_cos np_sin numpy_score init ms) /\
  speed_mult (spin np_cos np_sin numpy_score init ms) < 1.53.
Proof.
  apply (spin_mult np_cos np_sin numpy_score ms init). split; reflexivity.
Qed.

(** ** Scans: the sectors and the obstacle flag (lines 231-258) *)

Lemma hits_Exists (threshold : Q) (rs : list Q) :
  hits threshold rs = true <-> Exists (fun r => r < threshold) rs.
Proof.
  induction rs as [|r rs IH]; cbn.
  - split; [discriminate|]. intro H; inversion H.
  - destruct (Qltb r threshold) eqn:E.
    + apply Qltb_lt in E. split; [intros _; now left|reflexivity].
    + apply Qltb_ge in E. rewrite IH. split; intro H; [now right|].
      inversion H as [? ? Hr|]; subst; [|assumption].
      exfalso. exact (Qlt_not_le _ _ Hr E).
Qed.

Lemma Qlen_nonneg {A} (l : list A) : 0 <= Qlen l.
Proof.
  unfold Qlen. change 0 with (inject_Z 0). rewrite <- Zle_Qle. lia.
Qed.

Lemma py_int_nonneg (q : Q) : 0 <= q -> py_int q = Qfloor q /\ (0 <= Qfloor q)%Z.
Proof.
  intro H. unfold py_int. apply Qle_bool_iff in H as Hb. rewrite Hb.
  split; [reflexivity|]. change 0%Z with (Qfloor 0).
  now apply Qfloor_resp_le.
Qed.

(** The two sector bounds are indices in order: 0 <= lo <= hi. *)
Lemma sector_bounds (n : Q) :
  0 <= n ->
  (0 <= py_int (n * math_atan_shield / math_pi)
     <= py_int (n * (math_pi - math_atan_shield) / math_pi))%Z.
Proof.
  intro Hn.
  assert (E1 : n * math_atan_shield / math_pi
               == math_atan_shield / math_pi * n) by (field; discriminate).
  assert (E2 : n * (math_pi - math_atan_shield) / math_pi
               == (math_pi - math_atan_shield) / math_pi * n)
    by (field; discriminate).
  assert (H1 : 0 <= n * math_atan_shield / math_pi).
  { rewrite E1. apply Qmult_le_0_compat; [discriminate|exact Hn]. }
  assert (H12 : n * math_atan_shield / math_pi
                <= n * (math_pi - math_atan_shield) / math_pi).
  { rewrite E1, E2. apply Qmult_le_compat_r; [discriminate|exact Hn]. }
  assert (H2 : 0 <= n * (math_pi - math_atan_shield) / math_pi)
    by (eapply Qle_trans; eassumption).
  destruct (py_int_nonneg _ H1) as [-> Hf1].
  destruct (py_int_nonneg _ H2) as [-> _].
  split; [exact Hf1|]. now apply Qfloor_resp_le.
Qed.

Lemma slice_bound_nonneg (n : nat) (i : Z) :
  (0 <= i)%Z -> slice_bound n i = Nat.min (Z.to_nat i) n.
Proof.
  intro H. unfold slice_bound.
  destruct (i <? 0)%Z eqn:E; [|reflexivity]. apply Z.ltb_lt in E. lia.
Qed.

(** Right, front and left sectors, in this order, make up the sequence. *)
Lemma sectors_partition (rs : list Q) :
  let '(front_ranges, side_ranges_right, side_ranges_left) := sectors rs in
  rs = side_ranges_right ++ front_ranges ++ side_ranges_left.
Proof.
  unfold sectors, py_slice, py_slice_from.
  destruct (sector_bounds (Qlen rs) (Qlen_nonneg rs)) as [Hlo Hhi].
  set (lo := py_int (Qlen rs * math_atan_shield / math_pi)) in *.
  set (hi := py_int (Qlen rs * (math_pi - math_atan_shield) / math_pi)) in *.
  rewrite (slice_bound_nonneg (length rs) lo) by exact Hlo.
  rewrite (slice_bound_nonneg (length rs) hi) by lia.
  rewrite (slice_bound_nonneg (length rs) 0) by lia.
  set (a := Nat.min (Z.to_nat lo) (length rs)).
  set (b := Nat.min (Z.to_nat hi) (length rs)).
  assert (Hab : (a <= b)%nat) by (subst a b; lia).
  change (Nat.min (Z.to_nat 0) (length rs)) with 0%nat.
  rewrite Nat.sub_0_r. cbn [skipn].
  replace (skipn b rs) with (skipn (b - a) (skipn a rs))
    by (rewrite skipn_skipn; f_equal; lia).
  now rewrite firstn_skipn, firstn_skipn.
Qed.

Lemma hits_Exists_eq (threshold t : Q) (rs : list Q) :
  threshold == t ->
  hits threshold rs = true <-> Exists (fun r => r < t) rs.
Proof.
  intro E. rewrite hits_Exists.
  split; apply Exists_impl; intros r H; [rewrite <- E|rewrite E]; exact H.
Qed.

Lemma Exists_Forall_ge (t : Q) (rs : list Q) :
  Forall (fun r => t <= r) rs -> ~ Exists (fun r => r < t) rs.
Proof.
  intros HF HE. apply Exists_exists in HE as (r & Hin & Hlt).
  rewrite Forall_forall in HF. exact (Qlt_not_le _ _ Hlt (HF r Hin)).
Qed.

Lemma obstacle_scan_front (rs : list Q) :
  obstacle_scan rs = Some frontobj
  <-> Exists (fun r => r < 1.0) (fst (fst (sectors rs))).
Proof.
  unfold obstacle_scan. destruct (sectors rs) as [[front side_r] side_l]. cbn.
  rewrite <- (hits_Exists_eq THRESHOLD_OBSTACLE_VERTICAL 1.0) by reflexivity.
  destruct (hits THRESHOLD_OBSTACLE_VERTICAL front).
  - split; reflexivity.
  - destruct (hits THRESHOLD_OBSTACLE_HORIZONTAL (rev side_l)
              || hits THRESHOLD_OBSTACLE_HORIZONTAL side_r) eqn:E;
      rewrite ?orb_false_r in *;
      destruct (hits THRESHOLD_OBSTACLE_HORIZONTAL (rev side_l));
      destruct (hits THRESHOLD_OBSTACLE_HORIZONTAL side_r);
      split; discriminate.
Qed.

Lemma obstacle_scan_side (rs : list Q) :
  let '(front, side_r, side_l) := sectors rs in
  obstacle_scan rs = Some sideobj
  <-> ~ Exists (fun r => r < 1.0) front /\
      Exists (fun r => r < 0.125) (rev side_l ++ side_r).
Proof.
  unfold obstacle_scan. destruct (sectors rs) as [[front side_r] side_l].
  rewrite <- (hits_Exists_eq THRESHOLD_OBSTACLE_VERTICAL 1.0) by reflexivity.
  rewrite Exists_app.
  rewrite <- !(hits_Exists_eq THRESHOLD_OBSTACLE_HORIZONTAL 0.125) by reflexivity.
  cbn [hits_any].
  destruct (hits THRESHOLD_OBSTACLE_VERTICAL front);
    destruct (hits THRESHOLD_OBSTACLE_HORIZONTAL (rev side_l));
    destruct (hits THRESHOLD_OBSTACLE_HORIZONTAL side_r);
    split; try discriminate; try reflexivity;
    try (intros [H1 H2]; try (exfalso; apply H1; reflexivity);
         destruct H2; discriminate);
    intros _; (split; [discriminate|]); auto.
Qed.

Lemma lidar_callback_obstacle (np_cos np_sin : Q -> Q) (numpy_score : bool)
      (self : LineFollower) (message : LaserScan) :
  obstacle_detected (node_of (lidar_callback np_cos np_sin numpy_score self message))
  = match obstacle_scan (preprocess message) with
    | Some _ => true
    | None => false
    end.
Proof.
  unfold lidar_callback.
  destruct (obstacle_scan (preprocess message)); reflexivity.
Qed.

Lemma lidar_callback_ramp (np_cos np_sin : Q -> Q) (numpy_score : bool)
      (self : LineFollower) (message : LaserScan) :
  ramp_detected (node_of (lidar_callback np_cos np_sin numpy_score self message))
  = if (MIN_POINTS_FOR_GROUND <=? length (preprocess message))%nat
    then greater numpy_score
           (r_squared np_cos np_sin (preprocess message) (angle_increment message))
           R_SQUARED_THRESHOLD
    else PyBool false.
Proof.
  unfold lidar_callback.
  destruct (obstacle_scan (preprocess message));
    destruct (MIN_POINTS_FOR_GROUND <=? length (preprocess message))%nat;
    reflexivity.
Qed.

(** C6.  The right sector [0, lo), the front sector [lo, hi) and the left
    sector [hi, end) of the preprocessed scan, with lo and hi the integer
    parts of length * theta / pi and length * (pi - theta) / pi, make up the
    scan.  The obstacle flag is set exactly when a front sample is below 1.0
    or a left or right sample is below 0.125, and is cleared when every
    sample is at or above the threshold of its sector.  The front sector is
    scanned first: the callback returns from the front loop exactly when a
    front sample is below 1.0, and from the side loops, which run over the
    left sector reversed and then the right one, exactly when no front
    sample is and one of those is below 0.125. *)
Theorem obstacle_flag (np_cos np_sin : Q -> Q) (numpy_score : bool)
        (self : LineFollower) (message : LaserScan) :
  let rs := preprocess message in
  let theta := math_atan_shield in
  let lo := py_int (Qlen rs * theta / math_pi) in
  let hi := py_int (Qlen rs * (math_pi - theta) / math_pi) in
  let front := py_slice rs lo hi in
  let side_r := py_slice rs 0 lo in
  let side_l := py_slice_from rs hi in
  let after := node_of (lidar_callback np_cos np_sin numpy_score self message) in
  rs = side_r ++ front ++ side_l /\
  (obstacle_detected after = true <->
   Exists (fun r => r < 1.0) front \/
   Exists (fun r => r < 0.125) side_l \/
   Exists (fun r => r < 0.125) side_r) /\
  (Forall (fun r => 1.0 <= r) front ->
   Forall (fun r => 0.125 <= r) side_l ->
   Forall (fun r => 0.125 <= r) side_r ->
   obstacle_detected after = false) /\
  (obstacle_scan rs = Some frontobj <-> Exists (fun r => r < 1.0) front) /\
  (obstacle_scan rs = Some sideobj <->
   ~ Exists (fun r => r < 1.0) front /\
   Exists (fun r => r < 0.125) (rev side_l ++ side_r)).
Proof.
  intros rs theta lo hi front side_r side_l after.
  pose proof (sectors_partition rs) as Hpart.
  pose proof (obstacle_scan_front rs) as Hfront.
  pose proof (obstacle_scan_side rs) as Hside.
  change (sectors rs) with (front, side_r, side_l) in Hpart, Hfront, Hside.
  cbv beta iota in Hpart, Hside. cbn [fst] in Hfront.
  assert (Hflag : obstacle_detected after = true <->
                  Exists (fun r => r < 1.0) front \/
                  Exists (fun r => r < 0.125) side_l \/
                  Exists (fun r => r < 0.125) side_r).
  { subst after. rewrite lidar_callback_obstacle. fold rs.
    rewrite Exists_app in Hside.
    destruct (obstacle_scan rs) as [[|]|].
    - split; [intros _; left; now apply Hfront|reflexivity].
    - split; [intros _|reflexivity].
      destruct Hside as [Hs _]. destruct (Hs eq_refl) as [_ [H|H]].
      + right; left. apply Exists_rev in H. now rewrite rev_involutive in H.
      + right; right. exact H.
    - split; [discriminate|]. intros [H|[H|H]]; exfalso.
      + apply Hfront in H. discriminate.
      + destruct (hits THRESHOLD_OBSTACLE_VERTICAL front) eqn:E.
        * apply (hits_Exists_eq _ 1.0) in E; [|reflexivity].
          apply Hfront in E. discriminate.
        * assert (Hn : ~ Exists (fun r => r < 1.0) front).
          { intro H'. apply (hits_Exists_eq THRESHOLD_OBSTACLE_VERTICAL 1.0) in H';
              [congruence|reflexivity]. }
          destruct Hside as [_ Hs].
          assert (Some sideobj = None :> option Hit); [|discriminate].
          symmetry. apply Hs. split; [exact Hn|left; now apply Exists_rev].
      + destruct Hside as [_ Hs].
        assert (Hn : ~ Exists (fun r => r < 1.0) front).
        { intro H'. apply Hfront in H'. discriminate. }
        assert (Some sideobj = None :> option Hit); [|discriminate].
        symmetry. apply Hs. split; [exact Hn|now right]. }
  split; [exact Hpart|]. split; [exact Hflag|].
  split; [|split; [exact Hfront|exact Hside]].
  intros Hf Hl Hr. apply not_true_is_false. intro H. apply Hflag in H.
  destruct H as [H|[H|H]];
    [ exact (Exists_Forall_ge _ _ Hf H)
    | exact (Exists_Forall_ge _ _ Hl H)
    | exact (Exists_Forall_ge _ _ Hr H) ].
Qed.

(** ** Scans: the ramp flag (lines 219-229) *)

(** C5.  When the preprocessed scan has fewer than 10 points the ramp flag
    is cleared, whatever the points, the angle increment and the flag
    before are. *)
Theorem too_few_points (np_cos np_sin : Q -> Q) (numpy_score : bool)
        (self : LineFollower) (message : LaserScan) :
  (length (preprocess message) < 10)%nat ->
  ramp_detected (node_of (lidar_callback np_cos np_sin numpy_score self message))
  = PyBool false.
Proof.
  intro H. rewrite lidar_callback_ramp.
  destruct (MIN_POINTS_FOR_GROUND <=? length (preprocess message))%nat eqn:E;
    [|reflexivity].
  apply Nat.leb_le in E. unfold MIN_POINTS_FOR_GROUND in E. lia.
Qed.

Lemma too_few_points_witness :
  length (preprocess scan_short) = 9%nat /\
  ramp_detected
    (node_of (lidar_callback cos_poly sin_poly true
                (with_ramp_detected init (PyBool true)) scan_short))
  = PyBool false.
Proof.
  split; [reflexivity|].
  apply (too_few_points cos_poly sin_poly true
           (with_ramp_detected init (PyBool true)) scan_short).
  vm_compute. lia.
Defined.

(** C10.  The callback returns on every scan, and the two flags it leaves
    are the same from any two nodes: both are assigned on every path, from
    the message alone. *)
Theorem flags_from_scan (np_cos np_sin : Q -> Q) (numpy_score : bool)
        (self1 self2 : LineFollower) (message : LaserScan) :
  let after1 := lidar_callback np_cos np_sin numpy_score self1 message in
  let after2 := lidar_callback np_cos np_sin numpy_score self2 message in
  (exists node1, after1 = Returned node1) /\
  (exists node2, after2 = Returned node2) /\
  ramp_detected (node_of after1) = ramp_detected (node_of after2) /\
  obstacle_detected (node_of after1) = obstacle_detected (node_of after2).
Proof.
  cbv zeta. split; [|split; [|split]].
  - unfold lidar_callback.
    destruct (obstacle_scan (preprocess message)); eauto.
  - unfold lidar_callback.
    destruct (obstacle_scan (preprocess message)); eauto.
  - now rewrite !lidar_callback_ramp.
  - now rewrite !lidar_callback_obstacle.
Qed.

(** ** Sums *)

Section Sums.

Context {A : Type}.
Implicit Types (f g : A -> Q) (l : list A).

Lemma Qsum_ext_in f g l :
  (forall a, In a l -> f a == g a) -> Qsum (map f l) == Qsum (map g l).
Proof.
  induction l as [|a l IH]; intro H; cbn [map Qsum fold_right]; [reflexivity|].
  fold (Qsum (map f l)) (Qsum (map g l)).
  rewrite (H a (or_introl eq_refl)), IH; [reflexivity|].
  intros b Hb. apply H. now right.
Qed.

Lemma Qsum_ext f g l :
  (forall a, f a == g a) -> Qsum (map f l) == Qsum (map g l).
Proof. intro H. apply Qsum_ext_in. intros a _. apply H. Qed.

Lemma Qsum_plus f g l :
  Qsum (map (fun a => f a + g a) l) == Qsum (map f l) + Qsum (map g l).
Proof.
  induction l as [|a l IH]; cbn [map Qsum fold_right]; [reflexivity|].
  fold (Qsum (map f l)) (Qsum (map g l)) (Qsum (map (fun a => f a + g a) l)).
  rewrite IH. ring.
Qed.

Lemma Qsum_scale c f l :
  Qsum (map (fun a => c * f a) l) == c * Qsum (map f l).
Proof.
  induction l as [|a l IH]; cbn [map Qsum fold_right]; [ring|].
  fold (Qsum (map f l)) (Qsum (map (fun a => c * f a) l)).
  rewrite IH. ring.
Qed.

Lemma Qsum_const c l : Qsum (map (fun _ => c) l) == c * Qlen l.
Proof.
  unfold Qlen. induction l as [|a l IH].
  { cbn [map Qsum fold_right length Z.of_nat]. change (inject_Z 0) with 0. ring. }
  cbn [map Qsum fold_right length]. fold (Qsum (map (fun _ : A => c) l)).
  rewrite IH, Nat2Z.inj_succ. unfold Z.succ. rewrite inject_Z_plus. ring.
Qed.

Lemma Qsum_nonneg f l :
  (forall a, In a l -> 0 <= f a) -> 0 <= Qsum (map f l).
Proof.
  induction l as [|a l IH]; intro H; cbn [map Qsum fold_right]; [discriminate|].
  fold (Qsum (map f l)).
  assert (0 <= f a) by (apply H; now left).
  assert (0 <= Qsum (map f l)) by (apply IH; intros b Hb; apply H; now right).
  lra.
Qed.

Lemma Qsum_zero_in f l :
  (forall a, In a l -> 0 <= f a) -> Qsum (map f l) == 0 ->
  forall a, In a l -> f a == 0.
Proof.
  induction l as [|a l IH]; intros H Hs b Hb; [destruct Hb|].
  cbn [map Qsum fold_right] in Hs. fold (Qsum (map f l)) in Hs.
  assert (Ha : 0 <= f a) by (apply H; now left).
  assert (Hl : 0 <= Qsum (map f l))
    by (apply Qsum_nonneg; intros c Hc; apply H; now right).
  destruct Hb as [<-|Hb]; [lra|].
  apply IH; [intros c Hc; apply H; now right|lra|exact Hb].
Qed.

End Sums.

Lemma sq_nonneg (q : Q) : 0 <= sq q.
Proof.
  unfold sq. destruct (Qlt_le_dec q 0) as [H|H].
  - setoid_replace (q * q) with ((- q) * (- q)) by ring.
    apply Qmult_le_0_compat; lra.
  - now apply Qmult_le_0_compat.
Qed.

Lemma sq_zero (q : Q) : sq q == 0 -> q == 0.
Proof.
  unfold sq. intro H. destruct (Qmult_integral _ _ H); assumption.
Qed.

Lemma Qlen_nonzero {A} (l : list A) : l <> [] -> ~ Qlen l == 0.
Proof.
  intros Hl H. destruct l; [congruence|].
  unfold Qlen, Qeq in H. cbn [length Qnum Qden inject_Z] in H. lia.
Qed.

Lemma sse_nonneg (reg : Q * Q) (ps : list (Q * Q)) : 0 <= sse reg ps.
Proof. apply Qsum_nonneg. intros p _. apply sq_nonneg. Qed.

(** ** The fitted line is a least-squares line *)

Lemma combine_fst_snd {A B} (ps : list (A * B)) :
  combine (map fst ps) (map snd ps) = ps.
Proof.
  induction ps as [|[a b] ps IH]; cbn; [reflexivity|]. now rewrite IH.
Qed.

Lemma map_fst_combine {A B} (xs : list A) (ys : list B) :
  length xs = length ys -> map fst (combine xs ys) = xs.
Proof.
  revert ys. induction xs as [|a xs IH]; intros [|b ys] H; cbn in *;
    try reflexivity; try discriminate.
  f_equal. apply IH. now injection H.
Qed.

Lemma map_snd_combine {A B} (xs : list A) (ys : list B) :
  length xs = length ys -> map snd (combine xs ys) = ys.
Proof.
  revert ys. induction xs as [|a xs IH]; intros [|b ys] H; cbn in *;
    try reflexivity; try discriminate.
  f_equal. apply IH. now injection H.
Qed.

Lemma combine_predict (reg : Q * Q) (xs ys : list Q) :
  combine ys (predict reg xs)
  = map (fun p => (snd p, fst reg * fst p + snd reg)) (combine xs ys).
Proof.
  unfold predict. revert ys.
  induction xs as [|a xs IH]; intros [|b ys]; cbn; try reflexivity.
  now rewrite IH.
Qed.

(** The residual sum of squares that [r2_score] computes is [sse]. *)
Lemma residual_sse (reg : Q * Q) (xs ys : list Q) :
  Qsum (map (fun p => sq (fst p - snd p)) (combine ys (predict reg xs)))
  = sse reg (combine xs ys).
Proof.
  unfold sse. now rewrite combine_predict, map_map.
Qed.

Section LeastSquares.

Variable ps : list (Q * Q).
Hypothesis Hps : ps <> [].

Let x_mean := np_mean (map fst ps).
Let y_mean := np_mean (map snd ps).
Let t (p : Q * Q) := fst p - x_mean.
Let s (p : Q * Q) := snd p - y_mean.
Let sxx := Qsum (map (fun p => sq (t p)) ps).
Let sxy := Qsum (map (fun p => t p * s p) ps).
Let coef := if Qeq_bool sxx 0 then 0 else sxy / sxx.
Let icpt := y_mean - coef * x_mean.
Let e (p : Q * Q) := snd p - (coef * fst p + icpt).

Lemma fit_pairs : LinearRegression_fit (map fst ps) (map snd ps) = (coef, icpt).
Proof.
  unfold LinearRegression_fit. rewrite combine_fst_snd, map_map. reflexivity.
Qed.

Lemma sum_centred (f : Q * Q -> Q) :
  Qsum (map (fun p => f p - np_mean (map f ps)) ps) == 0.
Proof.
  unfold np_mean, Qlen. rewrite length_map. fold (Qlen ps).
  pose proof (Qlen_nonzero ps Hps) as Hn.
  rewrite (Qsum_ext (fun p => f p - Qsum (map f ps) / Qlen ps)
                    (fun p => f p + (- (Qsum (map f ps) / Qlen ps))))
    by (intro; ring).
  rewrite (Qsum_plus f (fun _ => - (Qsum (map f ps) / Qlen ps))).
  rewrite Qsum_const. field. exact Hn.
Qed.

Lemma sum_t : Qsum (map t ps) == 0.
Proof. exact (sum_centred fst). Qed.

Lemma sum_s : Qsum (map s ps) == 0.
Proof. exact (sum_centred snd). Qed.

Lemma residual_split (p : Q * Q) : e p == s p + (- coef) * t p.
Proof. unfold e, s, t, icpt. ring. Qed.

(** The normal equations. *)
Lemma normal_intercept : Qsum (map e ps) == 0.
Proof.
  rewrite (Qsum_ext e (fun p => s p + (- coef) * t p)) by apply residual_split.
  rewrite Qsum_plus, Qsum_scale, sum_t, sum_s. ring.
Qed.

Lemma normal_slope : Qsum (map (fun p => e p * t p) ps) == 0.
Proof.
  rewrite (Qsum_ext (fun p => e p * t p)
                    (fun p => t p * s p + (- coef) * sq (t p))).
  2:{ intro p. rewrite residual_split. unfold sq. ring. }
  rewrite Qsum_plus, Qsum_scale. fold sxx sxy. unfold coef.
  destruct (Qeq_bool sxx 0) eqn:E.
  - apply Qeq_bool_iff in E.
    assert (Ht : forall p, In p ps -> t p == 0).
    { intros p Hp. apply sq_zero.
      apply (Qsum_zero_in (fun p => sq (t p)) ps); try assumption.
      intros q _. apply sq_nonneg. }
    assert (Hxy : sxy == 0).
    { unfold sxy.
      rewrite (Qsum_ext_in (fun p => t p * s p) (fun _ => 0) ps).
      - rewrite Qsum_const. ring.
      - intros p Hp. rewrite (Ht p Hp). ring. }
    rewrite Hxy, E. ring.
  - apply Qeq_bool_neq in E. field. exact E.
Qed.

(** Against any other line the residual sum of squares grows by a sum of
    squares. *)
Lemma sse_split (c d : Q) :
  let alpha := coef - c in
  let beta := icpt - d + (coef - c) * x_mean in
  sse (c, d) ps
  == sse (coef, icpt) ps + Qsum (map (fun p => sq (alpha * t p + beta)) ps).
Proof.
  intros alpha beta. unfold sse. cbn [fst snd]. fold e.
  rewrite (Qsum_ext (fun p => sq (snd p - (c * fst p + d)))
          (fun p => sq (e p)
                    + (sq (alpha * t p + beta)
                       + ((2 * alpha) * (e p * t p) + (2 * beta) * e p)))).
  2:{ intro p. unfold sq, e, t, alpha, beta. ring. }
  rewrite Qsum_plus.
  rewrite (Qsum_plus (fun p => sq (alpha * t p + beta))).
  rewrite (Qsum_plus (fun p => 2 * alpha * (e p * t p))).
  rewrite (Qsum_scale (2 * alpha) (fun p => e p * t p)).
  rewrite (Qsum_scale (2 * beta) e).
  rewrite normal_slope, normal_intercept.
  change (fun p : Q * Q => sq (snd p - (coef * fst p + icpt)))
    with (fun p : Q * Q => sq (e p)).
  ring.
Qed.

Lemma fit_least_squares_pairs (c d : Q) :
  sse (LinearRegression_fit (map fst ps) (map snd ps)) ps <= sse (c, d) ps.
Proof.
  rewrite fit_pairs, (sse_split c d).
  assert (0 <= Qsum (map (fun p =>
            sq ((coef - c) * t p + (icpt - d + (coef - c) * x_mean))) ps))
    by (apply Qsum_nonneg; intros p _; apply sq_nonneg).
  lra.
Qed.

End LeastSquares.

Lemma fit_least_squares (xs ys : list Q) (c d : Q) :
  length xs = length ys -> xs <> [] ->
  sse (LinearRegression_fit xs ys) (combine xs ys) <= sse (c, d) (combine xs ys).
Proof.
  intros Hlen Hne.
  assert (Hps : combine xs ys <> []).
  { destruct xs, ys; cbn in *; congruence. }
  pose proof (fit_least_squares_pairs (combine xs ys) Hps c d) as H.
  now rewrite map_fst_combine, map_snd_combine in H by assumption.
Qed.

(** ** The Cartesian points (lines 220-222) *)

Lemma nth_error_np_mul (a b : list Q) (i : nat) (u v : Q) :
  nth_error a i = Some u -> nth_error b i = Some v ->
  nth_error (np_mul a b) i = Some (u * v).
Proof.
  unfold np_mul. revert b i.
  induction a as [|a0 a IH]; intros [|b0 b] [|i] Ha Hb; cbn in *;
    try discriminate.
  - injection Ha as <-. injection Hb as <-. reflexivity.
  - now apply IH.
Qed.

Lemma length_np_mul (a b : list Q) :
  length a = length b -> length (np_mul a b) = length a.
Proof.
  intro H. unfold np_mul. rewrite length_map, length_combine. lia.
Qed.

Lemma nth_error_angles (n i : nat) (inc : Q) :
  (i < n)%nat ->
  nth_error (np_scale (np_arange n) inc) i
  = Some (inject_Z (Z.of_nat i) * inc).
Proof.
  intro H. unfold np_scale, np_arange.
  rewrite !nth_error_map, nth_error_seq.
  apply Nat.ltb_lt in H. rewrite H. reflexivity.
Qed.

Lemma length_angles (n : nat) (inc : Q) :
  length (np_scale (np_arange n) inc) = n.
Proof.
  unfold np_scale, np_arange. now rewrite !length_map, length_seq.
Qed.

Section Cartesian.

Variables np_cos np_sin : Q -> Q.

Lemma cartesian_length (rs : list Q) (inc : Q) :
  length (fst (cartesian np_cos np_sin rs inc)) = length rs /\
  length (snd (cartesian np_cos np_sin rs inc)) = length rs.
Proof.
  unfold cartesian. cbn [fst snd].
  split; apply length_np_mul; now rewrite length_map, length_angles.
Qed.

Lemma cartesian_nth (rs : list Q) (inc : Q) (i : nat) (r : Q) :
  nth_error rs i = Some r ->
  let angle := inject_Z (Z.of_nat i) * inc in
  nth_error (fst (cartesian np_cos np_sin rs inc)) i = Some (r * np_cos angle) /\
  nth_error (snd (cartesian np_cos np_sin rs inc)) i = Some (r * np_sin angle).
Proof.
  intros Hr angle.
  assert (Hi : (i < length rs)%nat)
    by (apply nth_error_Some; congruence).
  unfold cartesian. cbn [fst snd].
  split; apply nth_error_np_mul; try exact Hr;
    rewrite nth_error_map, nth_error_angles by exact Hi; reflexivity.
Qed.

End Cartesian.

(** ** The coefficient of determination *)

Lemma score_cases (reg : Q * Q) (xs ys : list Q) :
  let u := sse reg (combine xs ys) in
  let v := Qsum (map (fun y => sq (y - np_mean ys)) ys) in
  score reg xs ys
  = if Qeq_bool u 0 then 1.0 else if Qeq_bool v 0 then 0.0 else 1 - u / v.
Proof.
  unfold score, r2_score. now rewrite residual_sse.
Qed.

(** The total sum of squares is the residual sum of squares of the constant
    line through the mean. *)
Lemma total_sse (xs ys : list Q) :
  length xs = length ys ->
  Qsum (map (fun y => sq (y - np_mean ys)) ys)
  == sse (0, np_mean ys) (combine xs ys).
Proof.
  intro H. unfold sse. cbn [fst snd]. set (m := np_mean ys).
  transitivity (Qsum (map (fun y => sq (y - m)) (map snd (combine xs ys)))).
  - now rewrite map_snd_combine.
  - rewrite map_map. apply Qsum_ext. intro p. unfold sq. ring.
Qed.

Lemma sse_on_line (a b : Q) (ps : list (Q * Q)) :
  Forall (fun p => snd p == a * fst p + b) ps -> sse (a, b) ps == 0.
Proof.
  intro H. unfold sse. cbn [fst snd].
  rewrite (Qsum_ext_in _ (fun _ => 0) ps).
  - rewrite Qsum_const. ring.
  - intros p Hp. rewrite Forall_forall in H.
    pose proof (H p Hp) as E. cbv beta in E. unfold sq. rewrite E. ring.
Qed.

Lemma fit_exact (xs ys : list Q) (c d : Q) :
  length xs = length ys -> xs <> [] ->
  sse (c, d) (combine xs ys) == 0 ->
  sse (LinearRegression_fit xs ys) (combine xs ys) == 0.
Proof.
  intros Hlen Hne H0.
  pose proof (fit_least_squares xs ys c d Hlen Hne) as Hle.
  pose proof (sse_nonneg (LinearRegression_fit xs ys) (combine xs ys)) as Hge.
  lra.
Qed.

Lemma score_exact (xs ys : list Q) :
  sse (LinearRegression_fit xs ys) (combine xs ys) == 0 ->
  score (LinearRegression_fit xs ys) xs ys = 1.0.
Proof.
  intro H. rewrite score_cases. cbv zeta.
  apply Qeq_eq_bool in H. now rewrite H.
Qed.

(** C9.  For a preprocessed scan of at least 10 points: sample i becomes the
    point (range * cos(i * angle_increment), range * sin(i * angle_increment));
    the fitted line has the least residual sum of squares u among all lines
    y = a * x + b; R^2 is 1 - u / v with v the total sum of squares (and 1
    when v is zero); and the ramp flag is set exactly when R^2 exceeds 0.9.
    Points lying on a line y = a * x + b give R^2 = 1 and set the flag; a
    scan with R^2 below 0.9 clears it. *)
Theorem ramp_flag (np_cos np_sin : Q -> Q) (numpy_score : bool)
        (self : LineFollower) (message : LaserScan) :
  (10 <= length (preprocess message))%nat ->
  let rs := preprocess message in
  let inc := angle_increment message in
  let xs := fst (cartesian np_cos np_sin rs inc) in
  let ys := snd (cartesian np_cos np_sin rs inc) in
  let u := sse (LinearRegression_fit xs ys) (combine xs ys) in
  let v := Qsum (map (fun y => sq (y - np_mean ys)) ys) in
  let r2 := r_squared np_cos np_sin rs inc in
  let ramp :=
    ramp_detected (node_of (lidar_callback np_cos np_sin numpy_score self message)) in
  (length xs = length rs /\ length ys = length rs /\
   forall i r, nth_error rs i = Some r ->
     nth_error xs i = Some (r * np_cos (inject_Z (Z.of_nat i) * inc)) /\
     nth_error ys i = Some (r * np_sin (inject_Z (Z.of_nat i) * inc))) /\
  (forall a b, u <= sse (a, b) (combine xs ys)) /\
  (~ v == 0 -> r2 == 1 - u / v) /\
  (v == 0 -> r2 == 1) /\
  (truth ramp = true <-> 0.9 < r2) /\
  (forall a b, Forall (fun p => snd p == a * fst p + b) (combine xs ys) ->
               r2 == 1 /\ truth ramp = true) /\
  (r2 < 0.9 -> truth ramp = false) /\
  ramp = greater numpy_score r2 R_SQUARED_THRESHOLD.
Proof.
  intros Hn rs inc xs ys u v r2 ramp.
  destruct (cartesian_length np_cos np_sin rs inc) as [Hlx Hly].
  fold xs in Hlx. fold ys in Hly.
  assert (Hlen : length xs = length ys) by congruence.
  assert (Hne : xs <> []).
  { intro E. rewrite E in Hlx. cbn in Hlx. fold rs in Hn. lia. }
  assert (Hr2 : r2 = score (LinearRegression_fit xs ys) xs ys).
  { subst r2 xs ys. unfold r_squared.
    destruct (cartesian np_cos np_sin rs inc); reflexivity. }
  assert (Hflag : ramp = greater numpy_score r2 R_SQUARED_THRESHOLD).
  { subst ramp. rewrite lidar_callback_ramp. fold rs.
    apply Nat.leb_le in Hn. unfold MIN_POINTS_FOR_GROUND. fold rs in Hn.
    rewrite Hn. reflexivity. }
  assert (Hramp : truth ramp = Qltb 0.9 r2).
  { rewrite Hflag. apply truth_greater. }
  assert (Hexact : u == 0 -> r2 == 1 /\ truth ramp = true).
  { intro Hu. rewrite Hramp, Hr2, (score_exact xs ys Hu). split; reflexivity. }
  split; [|split; [|split; [|split; [|split; [|split; [|split]]]]]].
  - split; [exact Hlx|split; [exact Hly|]].
    intros i r Hi. exact (cartesian_nth np_cos np_sin rs inc i r Hi).
  - intros a b. exact (fit_least_squares xs ys a b Hlen Hne).
  - intro Hv. rewrite Hr2, score_cases. cbv zeta. fold u v.
    destruct (Qeq_bool u 0) eqn:Eu.
    + apply Qeq_bool_iff in Eu. rewrite Eu. field. exact Hv.
    + destruct (Qeq_bool v 0) eqn:Ev; [|reflexivity].
      apply Qeq_bool_iff in Ev. contradiction.
  - intro Hv. apply Hexact.
    apply (fit_exact xs ys 0 (np_mean ys) Hlen Hne).
    rewrite <- (total_sse xs ys Hlen). exact Hv.
  - rewrite Hramp. apply Qltb_lt.
  - intros a b Hline. apply Hexact.
    apply (fit_exact xs ys a b Hlen Hne). now apply sse_on_line.
  - intro Hlow. rewrite Hramp. apply Qltb_ge. now apply Qlt_le_weak.
  - exact Hflag.
Qed.

Lemma ramp_flag_witness :
  (10 <= length (preprocess scan_wall))%nat /\
  r_squared cos_poly sin_poly (preprocess scan_wall) (angle_increment scan_wall)
    == 1 /\
  truth
    (ramp_detected (node_of (lidar_callback cos_poly sin_poly true init scan_wall)))
    = true.
Proof.
  assert (Hn : (10 <= length (preprocess scan_wall))%nat)
    by (vm_compute; lia).
  split; [exact Hn|].
  destruct (ramp_flag cos_poly sin_poly true init scan_wall Hn)
    as (_ & _ & _ & _ & _ & Hline & _).
  apply (Hline 0 0).
  vm_compute. repeat (constructor; [reflexivity|]). constructor.
Defined.


(** * Further properties of the callbacks *)

(** ** edge_vectors_callback: errors, the frame, the message *)

Lemma half_nonzero (w : Q) : ~ w == 0 -> ~ w / 2 == 0.
Proof. intros Hw H. apply Hw. now apply half_zero. Qed.

Lemma lane_deviation_raises (self : LineFollower) (message : EdgeVectors) :
  lane_deviation self message = None
  <-> (vector_count message = 1%Z \/ vector_count message = 2%Z)
      /\ image_width message == 0.
Proof.
  unfold lane_deviation, curve, straight.
  destruct (vector_count message =? 1)%Z eqn:E1.
  - apply Z.eqb_eq in E1. rewrite E1. cbn.
    unfold py_div. destruct (Qeq_bool (image_width message) 0) eqn:E.
    + apply Qeq_bool_iff in E. split; [intros _; split; [now left|exact E]|reflexivity].
    + apply Qeq_bool_neq in E. split; [discriminate|]. intros [_ H]. contradiction.
  - apply Z.eqb_neq in E1.
    destruct (vector_count message =? 2)%Z eqn:E2; cbn.
    + apply Z.eqb_eq in E2. unfold py_div.
      destruct (Qeq_bool (image_width message / 2) 0) eqn:E.
      * apply Qeq_bool_iff in E. apply half_zero in E.
        split; [intros _; split; [now right|exact E]|reflexivity].
      * apply Qeq_bool_neq in E. split; [discriminate|]. intros [_ H].
        exfalso. apply E. rewrite H. reflexivity.
    + apply Z.eqb_neq in E2. split; [discriminate|].
      intros [[H|H] _]; contradiction.
Qed.

(** X1.  The callback raises ZeroDivisionError exactly when the message has
    one or two vectors and a zero image width, and then the node is as it
    was; on every other message it publishes one Joy message whose buttons
    are [1,0,0,0,0,0,0,1] and whose axes are [0, speed, 0, turn]. *)
Theorem edge_vectors_callback_outcome (self : LineFollower) (message : EdgeVectors) :
  let zero_width :=
    (vector_count message = 1%Z \/ vector_count message = 2%Z)
    /\ image_width message == 0 in
  match edge_vectors_callback self message with
  | ZeroDivisionError node => node = self /\ zero_width
  | Published _ msg =>
    ~ zero_width /\
    buttons msg = [1; 0; 0; 0; 0; 0; 0; 1]%Z /\
    exists speed turn, axes msg = [0.0; speed; 0.0; turn]
  | Returned _ => False
  end.
Proof.
  intro zero_width. unfold edge_vectors_callback.
  pose proof (lane_deviation_raises self message) as H.
  destruct (lane_deviation self message) as [fr|].
  - cbn. split; [|split; [reflexivity|eauto]].
    intro Hz. apply H in Hz. discriminate.
  - split; [reflexivity|]. now apply H.
Qed.

(** X2.  A message whose vector count is neither 1 nor 2 never raises, even
    with a zero width: the callback leaves the node as it was and publishes
    turn 0 with the speed the overrides give, which is 1.0 when no flag is
    set. *)
Theorem no_line_command (self : LineFollower) (message : EdgeVectors) :
  vector_count message <> 1%Z ->
  vector_count message <> 2%Z ->
  exists speed,
    edge_vectors_callback self message
      = Published self (rover_move_manual_mode speed TURN_MIN) /\
    (stop_sign (traffic_status self) = false ->
     truth (ramp_detected self) = false ->
     obstacle_detected self = false ->
     speed = SPEED_MAX).
Proof.
  intros H1 H2. apply Z.eqb_neq in H1, H2.
  unfold edge_vectors_callback, lane_deviation. rewrite H1, H2. cbn.
  eexists. split; [reflexivity|].
  intros -> Hr ->. now rewrite (is_True_truth _ Hr).
Qed.

Lemma no_line_command_witness :
  exists speed,
    edge_vectors_callback init no_line
      = Published init (rover_move_manual_mode speed TURN_MIN) /\
    speed = SPEED_MAX.
Proof.
  destruct (no_line_command init no_line) as (speed & He & Hs).
  - discriminate.
  - discriminate.
  - exists speed. split; [exact He|]. apply Hs; reflexivity.
Defined.

(** X3.  With two edges and a non-zero width the multiplier is replaced by
    its mean with 1.0, so its distance to 1.0 halves, prev_turn is reset to
    0, and the speed is the maximum 1.0 whatever the multiplier is: it is the
    emitted speed when no flag is set. *)
Theorem straight_update (self : LineFollower) (message : EdgeVectors) :
  vector_count message = 2%Z ->
  ~ image_width message == 0 ->
  exists fr,
    lane_deviation self message = Some fr /\
    node_of (edge_vectors_callback self message) = f_self fr /\
    speed_mult (f_self fr) == (1 + speed_mult self) / 2 /\
    speed_mult (f_self fr) - 1 == (speed_mult self - 1) / 2 /\
    prev_turn (f_self fr) = TURN_MIN /\
    f_speed fr = SPEED_MAX /\
    (stop_sign (traffic_status self) = false ->
     truth (ramp_detected self) = false ->
     obstacle_detected self = false ->
     emitted_speed (edge_vectors_callback self message) = Some SPEED_MAX).
Proof.
  intros Hc Hw.
  assert (Hfr : exists turn,
    lane_deviation self message
    = Some (mkFrame
              (with_prev_turn
                 (with_speed_mult self ((SPEED_MULT_DEFAULT + speed_mult self) / 2))
                 TURN_MIN)
              SPEED_MAX turn)).
  { unfold lane_deviation, straight. rewrite Hc. cbn.
    rewrite py_div_some by now apply half_nonzero. eauto. }
  destruct Hfr as [turn Hfr].
  eexists. split; [exact Hfr|]. cbn [f_self f_speed].
  split; [unfold edge_vectors_callback; rewrite Hfr; reflexivity|].
  cbn [speed_mult prev_turn with_prev_turn with_speed_mult].
  unfold SPEED_MULT_DEFAULT.
  split; [field|]. split; [field|].
  split; [reflexivity|]. split; [reflexivity|].
  intros Hs Hr Ho. unfold edge_vectors_callback. rewrite Hfr. cbn.
  now rewrite Hs, (is_True_truth _ Hr), Ho.
Qed.

Lemma straight_update_witness :
  exists fr,
    lane_deviation init straight_centred = Some fr /\
    speed_mult (f_self fr) == 1 /\
    emitted_speed (edge_vectors_callback init straight_centred) = Some SPEED_MAX.
Proof.
  destruct (straight_update init straight_centred)
    as (fr & Hfr & _ & Hm & _ & _ & _ & Hs).
  - reflexivity.
  - discriminate.
  - exists fr. split; [exact Hfr|]. split; [|apply Hs; reflexivity].
    rewrite Hm. reflexivity.
Defined.

Lemma turn_within_unit_witness :
  exists turn,
    emitted_turn (edge_vectors_callback init curve_quarter) = Some turn /\
    -1 <= turn <= 1.
Proof.
  apply (turn_within_unit init curve_quarter).
  - reflexivity.
  - intros p [<-|[<-|[<-|[<-|[]]]]]; split; discriminate.
Defined.

(** ** The speed of the one-edge branch *)

Lemma curve_speed_range (turn m : Q) :
  -1 <= turn <= 1 -> 0.47 < m < 1.53 ->
  0 < (1.5 * TURN_MAX - turn) / (1.5 * TURN_MAX) * m < 2.55.
Proof.
  intros [Ht1 Ht2] [Hm1 Hm2]. unfold TURN_MAX.
  set (a := (1.5 * 1.0 - turn) / (1.5 * 1.0)).
  assert (Ha : a == (1.5 - turn) * (2 # 3)) by (unfold a; field).
  assert (Ha1 : 1 # 3 <= a) by (rewrite Ha; lra).
  assert (Ha2 : a <= 5 # 3) by (rewrite Ha; lra).
  split.
  - apply Qmult_lt_0_compat; lra.
  - apply Qle_lt_trans with ((5 # 3) * m).
    + apply Qmult_le_compat_r; lra.
    + lra.
Qed.

Lemma overrides_speed_range (fr : Frame) (hi : Q) :
  0 <= f_speed fr < hi -> 1 <= hi ->
  0 <= f_speed (overrides fr) < hi.
Proof.
  intros [H1 H2] Hhi. unfold overrides. cbn.
  destruct (obstacle_detected (f_self fr)), (is_True (ramp_detected (f_self fr))),
    (stop_sign (traffic_status (f_self fr)));
    unfold SPEED_25_PERCENT, SPEED_50_PERCENT, SPEED_MIN, SPEED_MAX;
    try (split; [assumption|assumption]);
    (split; [discriminate|]);
    (eapply Qlt_le_trans; [|exact Hhi]); reflexivity.
Qed.

Lemma lane_speed_range (self : LineFollower) (message : EdgeVectors) (fr : Frame) :
  mult_bounded self ->
  0 < image_width message ->
  0 <= x (fst (vector_1 message)) <= image_width message ->
  0 <= x (snd (vector_1 message)) <= image_width message ->
  lane_deviation self message = Some fr ->
  0 <= f_speed fr < 2.55.
Proof.
  intros Hb Hw H1 H2 Hfr.
  assert (Hn : ~ image_width message == 0)
    by (intro H; rewrite H in Hw; discriminate).
  pose proof (lane_deviation_mult self message fr Hb Hfr) as Hb'.
  destruct (vector_count message =? 1)%Z eqn:E1.
  - apply Z.eqb_eq in E1.
    pose proof (lane_deviation_curve self message E1 Hn) as Hc.
    cbv zeta in Hc. rewrite Hc in Hfr. injection Hfr as <-.
    cbn [f_speed f_self with_prev_turn with_speed_mult speed_mult] in *.
    assert (Hr : 0 < (1.5 * TURN_MAX
                      - (x (snd (vector_1 message)) - x (fst (vector_1 message)))
                        / image_width message) / (1.5 * TURN_MAX)
                     * (if Qltb ((x (snd (vector_1 message))
                                  - x (fst (vector_1 message)))
                                 / image_width message) (prev_turn self)
                           && Qltb (speed_mult self) 1.5
                        then speed_mult self + 0.03
                        else if Qle_bool (prev_turn self)
                                  ((x (snd (vector_1 message))
                                    - x (fst (vector_1 message)))
                                   / image_width message)
                                && Qltb 0.5 (speed_mult self)
                        then speed_mult self - 0.03
                        else speed_mult self) < 2.55).
    { apply curve_speed_range; [|exact Hb'].
      split; [apply Qle_shift_div_l|apply Qle_shift_div_r]; try exact Hw; lra. }
    split; [apply Qlt_le_weak|]; apply Hr.
  - unfold lane_deviation, straight in Hfr. rewrite E1 in Hfr.
    destruct (vector_count message =? 2)%Z; cbn in Hfr.
    + destruct (py_div _ (image_width message / 2)); [|discriminate].
      injection Hfr as <-. cbn. split; [discriminate|reflexivity].
    + injection Hfr as <-. cbn. split; [discriminate|reflexivity].
Qed.

(** X6.  From the initial node, after any sequence of messages, a message
    with a positive width whose first vector lies in the image gets a
    command whose speed is at least 0 and below 2.55: the rover is never
    sent backwards, and the speed is bounded although not by 1. *)
Theorem speed_range (np_cos np_sin : Q -> Q) (numpy_score : bool)
        (ms : list Message) (message : EdgeVectors) :
  0 < image_width message ->
  0 <= x (fst (vector_1 message)) <= image_width message ->
  0 <= x (snd (vector_1 message)) <= image_width message ->
  exists speed,
    emitted_speed (edge_vectors_callback (spin np_cos np_sin numpy_score init ms) message)
      = Some speed /\
    0 <= speed < 2.55.
Proof.
  intros Hw H1 H2.
  set (self := spin np_cos np_sin numpy_score init ms).
  assert (Hb : mult_bounded self).
  { apply spin_mult. split; reflexivity. }
  assert (Hn : ~ image_width message == 0)
    by (intro H; rewrite H in Hw; discriminate).
  destruct (lane_deviation_total self message Hn) as [fr Hfr].
  unfold edge_vectors_callback. rewrite Hfr. cbn [emitted_speed].
  exists (f_speed (overrides fr)). split; [reflexivity|].
  apply overrides_speed_range; [|discriminate].
  exact (lane_speed_range self message fr Hb Hw H1 H2 Hfr).
Qed.

Lemma speed_range_witness :
  exists speed,
    emitted_speed
      (edge_vectors_callback (spin cos_poly sin_poly true init straightening)
                             curve_quarter) = Some speed /\
    0 <= speed < 2.55.
Proof.
  apply (speed_range cos_poly sin_poly true straightening curve_quarter).
  - reflexivity.
  - split; discriminate.
  - split; discriminate.
Defined.

(** X7.  For one node whose multiplier is within its bounds and two one-edge
    messages whose turns fall on the same side of prev_turn, the multiplier
    is updated alike and the message with the larger turn gets the smaller
    or equal speed from the branch. *)
Theorem curve_speed_monotone (self : LineFollower) (m1 m2 : EdgeVectors) :
  mult_bounded self ->
  vector_count m1 = 1%Z -> vector_count m2 = 1%Z ->
  ~ image_width m1 == 0 -> ~ image_width m2 == 0 ->
  let turn1 := (x (snd (vector_1 m1)) - x (fst (vector_1 m1))) / image_width m1 in
  let turn2 := (x (snd (vector_1 m2)) - x (fst (vector_1 m2))) / image_width m2 in
  turn1 <= turn2 ->
  (turn1 < prev_turn self <-> turn2 < prev_turn self) ->
  exists fr1 fr2,
    lane_deviation self m1 = Some fr1 /\
    lane_deviation self m2 = Some fr2 /\
    speed_mult (f_self fr1) = speed_mult (f_self fr2) /\
    f_speed fr2 <= f_speed fr1.
Proof.
  intros Hb Hc1 Hc2 Hw1 Hw2 turn1 turn2 Hle Hside.
  pose proof (lane_deviation_curve self m1 Hc1 Hw1) as H1.
  pose proof (lane_deviation_curve self m2 Hc2 Hw2) as H2.
  cbv zeta in H1, H2. fold turn1 in H1. fold turn2 in H2.
  pose proof (lane_deviation_mult self m1 _ Hb H1) as [Hpos _].
  cbn [f_self with_prev_turn with_speed_mult speed_mult] in Hpos.
  assert (Elt : Qltb turn2 (prev_turn self) = Qltb turn1 (prev_turn self)).
  { destruct (Qltb turn1 (prev_turn self)) eqn:E.
    - apply Qltb_lt. apply Hside. now apply Qltb_lt.
    - apply Qltb_ge in E. apply Qltb_ge.
      apply Qnot_lt_le. intro H. apply Hside in H.
      exact (Qlt_not_le _ _ H E). }
  assert (Ele : Qle_bool (prev_turn self) turn2 = Qle_bool (prev_turn self) turn1).
  { unfold Qltb in Elt.
    destruct (Qle_bool (prev_turn self) turn2),
      (Qle_bool (prev_turn self) turn1); cbn in Elt; congruence. }
  rewrite Elt, Ele in H2.
  eexists. eexists. split; [exact H1|]. split; [exact H2|].
  cbn [f_self f_speed with_prev_turn with_speed_mult speed_mult].
  split; [reflexivity|].
  apply Qmult_le_compat_r; [|lra].
  unfold TURN_MAX.
  setoid_replace ((1.5 * 1.0 - turn2) / (1.5 * 1.0))
    with ((1.5 - turn2) * (2 # 3)) by field.
  setoid_replace ((1.5 * 1.0 - turn1) / (1.5 * 1.0))
    with ((1.5 - turn1) * (2 # 3)) by field.
  lra.
Qed.

Lemma curve_speed_monotone_witness :
  exists fr1 fr2,
    lane_deviation init curve_half = Some fr1 /\
    lane_deviation init curve_quarter = Some fr2 /\
    f_speed fr2 <= f_speed fr1.
Proof.
  destruct (curve_speed_monotone init curve_half curve_quarter)
    as (fr1 & fr2 & H1 & H2 & _ & Hs).
  - split; reflexivity.
  - reflexivity.
  - reflexivity.
  - discriminate.
  - discriminate.
  - discriminate.
  - split; reflexivity.
  - exists fr1, fr2. auto.
Defined.

(** ** Runs of two-edge messages *)

Lemma straight_published (self : LineFollower) (message : EdgeVectors) :
  vector_count message = 2%Z ->
  ~ image_width message == 0 ->
  exists msg,
    edge_vectors_callback self message
    = Published
        (with_prev_turn
           (with_speed_mult self ((SPEED_MULT_DEFAULT + speed_mult self) / 2))
           TURN_MIN) msg.
Proof.
  intros Hc Hw. unfold edge_vectors_callback, lane_deviation, straight.
  rewrite Hc. cbn. rewrite py_div_some by now apply half_nonzero.
  cbn. eauto.
Qed.

Lemma half_power_succ (n : nat) :
  (1 # 2) ^ Z.of_nat (S n) == (1 # 2) * (1 # 2) ^ Z.of_nat n.
Proof.
  rewrite Nat2Z.inj_succ. unfold Z.succ.
  rewrite Qpower_plus by discriminate. change ((1 # 2) ^ 1) with (1 # 2). ring.
Qed.

Lemma is_two_edges_inv (m : Message) :
  is_two_edges m = true ->
  exists message,
    m = OnEdgeVectors message /\
    vector_count message = 2%Z /\ ~ image_width message == 0.
Proof.
  destruct m as [message|message|message]; cbn; try discriminate.
  intro H. apply andb_true_iff in H as [Hc Hw].
  exists message. split; [reflexivity|]. split; [now apply Z.eqb_eq|].
  apply negb_true_iff in Hw. now apply Qeq_bool_neq.
Qed.

(** X8.  A run of n two-edge messages with non-zero widths, which may
    differ from one message to the next, takes the multiplier geometrically
    to 1.0: its distance to 1.0 is divided by 2^n.  After a run that is not
    empty prev_turn is 0. *)
Theorem straight_run_relaxes (np_cos np_sin : Q -> Q) (numpy_score : bool)
        (ms : list Message) (self : LineFollower) :
  forallb is_two_edges ms = true ->
  let node := spin np_cos np_sin numpy_score self ms in
  speed_mult node - 1
  == (speed_mult self - 1) * (1 # 2) ^ Z.of_nat (length ms) /\
  (ms <> [] -> prev_turn node = TURN_MIN).
Proof.
  cbv zeta. revert self.
  induction ms as [|m ms IH]; intros self Hms.
  - cbn [length spin]. split; [|congruence].
    change ((1 # 2) ^ Z.of_nat 0) with 1. ring.
  - cbn [forallb] in Hms. apply andb_true_iff in Hms as [Hm Hms].
    destruct (is_two_edges_inv m Hm) as (message & -> & Hc & Hw).
    cbn [length spin dispatch].
    destruct (straight_published self message Hc Hw) as [msg ->].
    cbn [node_of].
    set (self' := with_prev_turn _ TURN_MIN).
    destruct (IH self' Hms) as [Hrun Hp]. split.
    + rewrite Hrun, half_power_succ. subst self'.
      cbn [speed_mult with_prev_turn with_speed_mult].
      unfold SPEED_MULT_DEFAULT. field.
    + intros _. destruct ms as [|m' ms']; [reflexivity|].
      apply Hp. discriminate.
Qed.

Lemma straight_run_relaxes_witness :
  speed_mult
    (spin cos_poly sin_poly true
       (spin cos_poly sin_poly true init straightening) straight_stretch) - 1
  == (1.51 - 1) * (1 # 8).
Proof.
  destruct (straight_run_relaxes cos_poly sin_poly true straight_stretch
              (spin cos_poly sin_poly true init straightening)) as [Hm _].
  - reflexivity.
  - rewrite Hm. vm_compute. reflexivity.
Defined.

(** ** The range preprocessor (lines 211-216) *)

Lemma py_int_quarter (n : nat) :
  py_int (inject_Z (Z.of_nat n) / 4) = Z.of_nat (n / 4).
Proof.
  assert (H : 0 <= inject_Z (Z.of_nat n) / 4).
  { apply Qle_shift_div_l; [reflexivity|].
    change (0 * 4) with (inject_Z 0). rewrite <- Zle_Qle. lia. }
  destruct (py_int_nonneg _ H) as [-> _].
  change 4 with (inject_Z 4). rewrite <- Zdiv_Qdiv.
  now rewrite (Nat2Z.inj_div n 4).
Qed.

Lemma py_int_three_quarters (n : nat) :
  py_int (3 * inject_Z (Z.of_nat n) / 4) = Z.of_nat (3 * n / 4).
Proof.
  assert (E : 3 * inject_Z (Z.of_nat n) / 4
              == inject_Z (Z.of_nat (3 * n)) / inject_Z 4).
  { rewrite Nat2Z.inj_mul, inject_Z_mult. reflexivity. }
  assert (H : 0 <= 3 * inject_Z (Z.of_nat n) / 4).
  { rewrite E. apply Qle_shift_div_l; [reflexivity|].
    change (0 * inject_Z 4) with (inject_Z 0). rewrite <- Zle_Qle. lia. }
  destruct (py_int_nonneg _ H) as [-> _].
  rewrite E, <- Zdiv_Qdiv.
  now rewrite (Nat2Z.inj_div (3 * n) 4).
Qed.

(** The slice of lines 215-216 in integer arithmetic. *)
Lemma preprocess_slice (message : LaserScan) :
  let n := length (valid_ranges message) in
  preprocess message
  = firstn (3 * n / 4 - n / 4) (skipn (n / 4) (valid_ranges message)).
Proof.
  cbv zeta. unfold preprocess. fold (valid_ranges message).
  set (valid := valid_ranges message). unfold py_slice, Qlen.
  rewrite py_int_quarter, py_int_three_quarters.
  rewrite !slice_bound_nonneg by lia. rewrite !Nat2Z.id.
  assert (H1 : (length valid / 4 <= length valid)%nat)
    by (apply Nat.Div0.div_le_upper_bound; lia).
  assert (H2 : (3 * length valid / 4 <= length valid)%nat)
    by (apply Nat.Div0.div_le_upper_bound; lia).
  now rewrite !Nat.min_l by assumption.
Qed.

Lemma preprocess_length (message : LaserScan) :
  let n := length (valid_ranges message) in
  length (preprocess message) = (3 * n / 4 - n / 4)%nat.
Proof.
  cbv zeta. rewrite preprocess_slice. cbv zeta.
  set (n := length (valid_ranges message)).
  rewrite length_firstn, length_skipn. fold n.
  assert (H : (3 * n / 4 <= n)%nat)
    by (apply Nat.Div0.div_le_upper_bound; lia).
  lia.
Qed.

Lemma valid_ranges_valid (message : LaserScan) :
  Forall (fun r => range_min message <= r /\ r < range_max message)
         (valid_ranges message).
Proof.
  apply Forall_forall. intros r Hr. unfold valid_ranges in Hr.
  apply filter_In in Hr as [_ Hr]. apply andb_true_iff in Hr as [H1 H2].
  split; [now apply Qle_bool_iff|now apply Qltb_lt].
Qed.

Lemma preprocess_context (message : LaserScan) :
  exists before after,
    valid_ranges message = before ++ preprocess message ++ after.
Proof.
  rewrite preprocess_slice. cbv zeta.
  set (valid := valid_ranges message). set (n := length valid).
  exists (firstn (n / 4) valid),
         (skipn (3 * n / 4 - n / 4) (skipn (n / 4) valid)).
  now rewrite !firstn_skipn.
Qed.

Lemma preprocess_valid (message : LaserScan) :
  Forall (fun r => range_min message <= r /\ r < range_max message)
         (preprocess message).
Proof.
  destruct (preprocess_context message) as (before & after & E).
  pose proof (valid_ranges_valid message) as H. rewrite E in H.
  apply Forall_app in H as [_ H]. now apply Forall_app in H as [H _].
Qed.

(** X10.  The preprocessed scan is a run of consecutive valid readings, in
    scan order: with n readings inside [range_min, range_max) it starts at
    index n / 4 of them and holds 3n / 4 - n / 4 readings (integer
    divisions), so never more than the scan has, and every reading kept is
    inside [range_min, range_max). *)
Theorem preprocess_middle_half (message : LaserScan) :
  let valid := valid_ranges message in
  let n := length valid in
  preprocess message = firstn (3 * n / 4 - n / 4) (skipn (n / 4) valid) /\
  (exists before after,
      valid = before ++ preprocess message ++ after /\
      length before = (n / 4)%nat) /\
  length (preprocess message) = (3 * n / 4 - n / 4)%nat /\
  (length (preprocess message) <= length (ranges message))%nat /\
  Forall (fun r => range_min message <= r /\ r < range_max message)
         (preprocess message).
Proof.
  intros valid n.
  pose proof (preprocess_length message) as Hlen. cbv zeta in Hlen. fold valid n in Hlen.
  assert (Hn : (n <= length (ranges message))%nat)
    by apply filter_length_le.
  assert (H4 : (n / 4 <= n)%nat) by (apply Nat.Div0.div_le_upper_bound; lia).
  assert (H34 : (3 * n / 4 <= n)%nat) by (apply Nat.Div0.div_le_upper_bound; lia).
  split; [apply preprocess_slice|]. split; [|split; [exact Hlen|split]].
  - rewrite preprocess_slice. cbv zeta. fold valid n.
    exists (firstn (n / 4) valid),
           (skipn (3 * n / 4 - n / 4) (skipn (n / 4) valid)).
    split; [now rewrite !firstn_skipn|].
    rewrite length_firstn. fold n. lia.
  - lia.
  - apply preprocess_valid.
Qed.

(** ** The obstacle flag and the thresholds *)

Lemma obstacle_detected_hits (np_cos np_sin : Q -> Q) (numpy_score : bool)
      (self : LineFollower) (message : LaserScan) :
  let '(front, side_r, side_l) := sectors (preprocess message) in
  obstacle_detected (node_of (lidar_callback np_cos np_sin numpy_score self message))
  = hits THRESHOLD_OBSTACLE_VERTICAL front
    || (hits THRESHOLD_OBSTACLE_HORIZONTAL (rev side_l)
        || hits THRESHOLD_OBSTACLE_HORIZONTAL side_r).
Proof.
  rewrite lidar_callback_obstacle. unfold obstacle_scan.
  destruct (sectors (preprocess message)) as [[front side_r] side_l].
  cbn [hits_any].
  destruct (hits THRESHOLD_OBSTACLE_VERTICAL front),
    (hits THRESHOLD_OBSTACLE_HORIZONTAL (rev side_l)),
    (hits THRESHOLD_OBSTACLE_HORIZONTAL side_r); reflexivity.
Qed.

Lemma hits_weaken (t t' : Q) (rs : list Q) :
  t <= t' -> hits t rs = true -> hits t' rs = true.
Proof.
  intros Ht H. apply hits_Exists in H. apply hits_Exists.
  eapply Exists_impl; [|exact H]. intros r Hr. cbv beta in *.
  eapply Qlt_le_trans; eassumption.
Qed.

Lemma hits_none (t : Q) (rs : list Q) :
  Forall (fun r => t <= r) rs -> hits t rs = false.
Proof.
  intro H. destruct (hits t rs) eqn:E; [|reflexivity].
  apply hits_Exists in E. exfalso. exact (Exists_Forall_ge t rs H E).
Qed.

Lemma Forall_ge_weaken (t t' : Q) (rs : list Q) :
  t <= t' -> Forall (fun r => t' <= r) rs -> Forall (fun r => t <= r) rs.
Proof.
  intros Ht. apply Forall_impl. intros r Hr. eapply Qle_trans; eassumption.
Qed.

(** X11.  A preprocessed reading below 0.125 sets the obstacle flag wherever
    it lies in the scan: each reading belongs to one of the three sectors,
    and 0.125 is below the front threshold too. *)
Theorem near_reading_sets_obstacle (np_cos np_sin : Q -> Q) (numpy_score : bool)
        (self : LineFollower) (message : LaserScan) :
  Exists (fun r => r < 0.125) (preprocess message) ->
  obstacle_detected (node_of (lidar_callback np_cos np_sin numpy_score self message)) = true.
Proof.
  intro H.
  pose proof (obstacle_detected_hits np_cos np_sin numpy_score self message) as Hb.
  pose proof (sectors_partition (preprocess message)) as Hp.
  destruct (sectors (preprocess message)) as [[front side_r] side_l].
  rewrite Hb. rewrite Hp in H.
  apply Exists_app in H as [H|H]; [|apply Exists_app in H as [H|H]].
  - apply (hits_Exists_eq THRESHOLD_OBSTACLE_HORIZONTAL 0.125) in H;
      [|reflexivity].
    rewrite H. now rewrite !orb_true_r.
  - apply (hits_Exists_eq THRESHOLD_OBSTACLE_HORIZONTAL 0.125) in H;
      [|reflexivity].
    apply (hits_weaken _ THRESHOLD_OBSTACLE_VERTICAL) in H; [|discriminate].
    now rewrite H.
  - apply Exists_rev in H.
    apply (hits_Exists_eq THRESHOLD_OBSTACLE_HORIZONTAL 0.125) in H;
      [|reflexivity].
    rewrite H. now rewrite orb_true_r.
Qed.

Lemma near_reading_sets_obstacle_witness :
  obstacle_detected (node_of (lidar_callback cos_poly sin_poly true init scan_near))
  = true.
Proof.
  apply (near_reading_sets_obstacle cos_poly sin_poly true init scan_near).
  vm_compute. do 2 apply Exists_cons_tl. apply Exists_cons_hd. reflexivity.
Defined.

(** X12.  When every preprocessed reading is at least 1.0 the obstacle flag
    is cleared, whatever it was; in particular a scanner whose range_min is
    1.0 or more never sets it. *)
Theorem far_readings_clear_obstacle (np_cos np_sin : Q -> Q) (numpy_score : bool)
        (self : LineFollower) (message : LaserScan) :
  Forall (fun r => 1.0 <= r) (preprocess message) \/ 1.0 <= range_min message ->
  obstacle_detected (node_of (lidar_callback np_cos np_sin numpy_score self message)) = false.
Proof.
  intro H.
  assert (Hfar : Forall (fun r => 1.0 <= r) (preprocess message)).
  { destruct H as [H|H]; [exact H|].
    eapply Forall_impl; [|apply preprocess_valid].
    intros r [Hr _]. cbv beta. eapply Qle_trans; eassumption. }
  pose proof (obstacle_detected_hits np_cos np_sin numpy_score self message) as Hb.
  pose proof (sectors_partition (preprocess message)) as Hp.
  destruct (sectors (preprocess message)) as [[front side_r] side_l].
  rewrite Hb. rewrite Hp in Hfar.
  apply Forall_app in Hfar as [Hr Hfar]. apply Forall_app in Hfar as [Hf Hl].
  rewrite (hits_none THRESHOLD_OBSTACLE_VERTICAL front) by exact Hf.
  rewrite (hits_none THRESHOLD_OBSTACLE_HORIZONTAL side_r)
    by (apply (Forall_ge_weaken _ 1.0); [discriminate|exact Hr]).
  rewrite (hits_none THRESHOLD_OBSTACLE_HORIZONTAL (rev side_l)).
  - reflexivity.
  - apply Forall_rev. apply (Forall_ge_weaken _ 1.0); [discriminate|exact Hl].
Qed.

Lemma far_readings_clear_obstacle_witness :
  obstacle_detected
    (node_of (lidar_callback cos_poly sin_poly true
                (with_obstacle_detected init true) scan_wall)) = false.
Proof.
  apply (far_readings_clear_obstacle cos_poly sin_poly true
           (with_obstacle_detected init true) scan_wall).
  left. vm_compute. repeat (constructor; [discriminate|]). constructor.
Defined.

(** X13.  When range_min is at least 0.125, as for a scanner that reports
    nothing closer, the side loops never set the flag: the callback never
    returns from them, and the obstacle flag is set exactly when a reading
    of the front sector is below 1.0. *)
Theorem side_sectors_blind (np_cos np_sin : Q -> Q) (numpy_score : bool)
        (self : LineFollower) (message : LaserScan) :
  0.125 <= range_min message ->
  let front := fst (fst (sectors (preprocess message))) in
  obstacle_scan (preprocess message) <> Some sideobj /\
  (obstacle_detected (node_of (lidar_callback np_cos np_sin numpy_score self message)) = true
   <-> Exists (fun r => r < 1.0) front).
Proof.
  intros Hmin front.
  assert (Hall : Forall (fun r => THRESHOLD_OBSTACLE_HORIZONTAL <= r)
                        (preprocess message)).
  { eapply Forall_impl; [|apply preprocess_valid].
    intros r [Hr _]. cbv beta. eapply Qle_trans; [|exact Hr].
    eapply Qle_trans; [|exact Hmin]. discriminate. }
  pose proof (obstacle_detected_hits np_cos np_sin numpy_score self message) as Hb.
  pose proof (sectors_partition (preprocess message)) as Hp.
  unfold obstacle_scan. subst front.
  destruct (sectors (preprocess message)) as [[front side_r] side_l].
  cbn [fst hits_any]. rewrite Hp in Hall.
  apply Forall_app in Hall as [Hr Hall]. apply Forall_app in Hall as [_ Hl].
  apply Forall_rev in Hl.
  rewrite Hb, (hits_none _ _ Hr), (hits_none _ _ Hl). cbn [orb].
  rewrite orb_false_r.
  split.
  - destruct (hits THRESHOLD_OBSTACLE_VERTICAL front); discriminate.
  - apply (hits_Exists_eq THRESHOLD_OBSTACLE_VERTICAL 1.0). reflexivity.
Qed.

Lemma side_sectors_blind_witness :
  obstacle_scan (preprocess scan_front) = Some frontobj /\
  obstacle_detected (node_of (lidar_callback cos_poly sin_poly true init scan_front))
  = true.
Proof.
  destruct (side_sectors_blind cos_poly sin_poly true init scan_front) as [_ H].
  - discriminate.
  - split; [reflexivity|]. apply H.
    vm_compute. do 2 apply Exists_cons_tl. apply Exists_cons_hd. reflexivity.
Defined.

(** ** How many readings the flags need *)

(** X14.  The ramp flag can only be set by a scan with at least 19 valid
    readings: with 18 or fewer, fewer than 10 are kept and the flag is
    cleared; with 19 or more at least 10 are kept and the flag is the test
    of the fit, R^2 > 0.9. *)
Theorem ramp_needs_19_readings (np_cos np_sin : Q -> Q) (numpy_score : bool)
        (self : LineFollower) (message : LaserScan) :
  let n := length (valid_ranges message) in
  let ramp :=
    ramp_detected (node_of (lidar_callback np_cos np_sin numpy_score self message)) in
  ((n <= 18)%nat -> ramp = PyBool false) /\
  ((19 <= n)%nat ->
   (10 <= length (preprocess message))%nat /\
   ramp = greater numpy_score
            (r_squared np_cos np_sin (preprocess message)
                       (angle_increment message))
            R_SQUARED_THRESHOLD).
Proof.
  intros n ramp. subst ramp. rewrite lidar_callback_ramp.
  pose proof (preprocess_length message) as Hlen. cbv zeta in Hlen.
  fold n in Hlen. unfold MIN_POINTS_FOR_GROUND.
  pose proof (Nat.div_mod_eq n 4) as H4.
  pose proof (Nat.mod_upper_bound n 4) as H4'.
  pose proof (Nat.div_mod_eq (3 * n) 4) as H34.
  pose proof (Nat.mod_upper_bound (3 * n) 4) as H34'.
  split; intro Hn.
  - destruct (10 <=? length (preprocess message))%nat eqn:E; [|reflexivity].
    apply Nat.leb_le in E. lia.
  - assert (Hk : (10 <= length (preprocess message))%nat) by lia.
    split; [exact Hk|]. apply Nat.leb_le in Hk. now rewrite Hk.
Qed.

(** X15.  A scan with at most one valid reading leaves nothing after
    preprocessing, and the callback clears both flags without raising. *)
Theorem sparse_scan_clears_flags (np_cos np_sin : Q -> Q) (numpy_score : bool)
        (self : LineFollower) (message : LaserScan) :
  (length (valid_ranges message) <= 1)%nat ->
  preprocess message = [] /\
  exists node,
    lidar_callback np_cos np_sin numpy_score self message = Returned node /\
    ramp_detected node = PyBool false /\
    obstacle_detected node = false.
Proof.
  intro Hn.
  assert (He : preprocess message = []).
  { apply length_zero_iff_nil. rewrite preprocess_length. cbv zeta.
    destruct (length (valid_ranges message)) as [|[|k]]; [reflexivity|reflexivity|lia]. }
  split; [exact He|].
  unfold lidar_callback. rewrite He. cbn [length].
  change (obstacle_scan []) with (@None Hit). cbn.
  eexists. split; [reflexivity|]. split; reflexivity.
Qed.

Lemma sparse_scan_clears_flags_witness :
  exists node,
    lidar_callback cos_poly sin_poly true
      (with_obstacle_detected (with_ramp_detected init (NumpyBool true)) true) scan_sparse
    = Returned node /\
    ramp_detected node = PyBool false /\
    obstacle_detected node = false.
Proof.
  apply (sparse_scan_clears_flags cos_poly sin_poly true
           (with_obstacle_detected (with_ramp_detected init (NumpyBool true)) true)
           scan_sparse).
  vm_compute. lia.
Defined.

(** ** The sizes of the sectors (lines 233-236) *)

Lemma sector_hi_bound (n : Q) (k : Z) :
  0 <= n -> n == inject_Z k ->
  (py_int (n * (math_pi - math_atan_shield) / math_pi) <= k)%Z.
Proof.
  intros Hn Hk.
  assert (E : n * (math_pi - math_atan_shield) / math_pi
              == (math_pi - math_atan_shield) / math_pi * n)
    by (field; discriminate).
  assert (H0 : 0 <= n * (math_pi - math_atan_shield) / math_pi).
  { rewrite E. apply Qmult_le_0_compat; [discriminate|exact Hn]. }
  destruct (py_int_nonneg _ H0) as [-> _].
  rewrite <- (Qfloor_Z k). apply Qfloor_resp_le. rewrite E, <- Hk.
  setoid_replace n with (1 * n) at 2 by ring.
  apply Qmult_le_compat_r; [discriminate|exact Hn].
Qed.

Lemma sector_gap (n : Q) :
  7 <= n ->
  (py_int (n * math_atan_shield / math_pi) + 1
   <= py_int (n * (math_pi - math_atan_shield) / math_pi))%Z.
Proof.
  intro Hn.
  assert (Hn0 : 0 <= n) by lra.
  assert (E1 : n * math_atan_shield / math_pi
               == math_atan_shield / math_pi * n) by (field; discriminate).
  assert (E2 : n * (math_pi - math_atan_shield) / math_pi
               == math_atan_shield / math_pi * n
                  + (math_pi - 2 * math_atan_shield) / math_pi * n)
    by (field; discriminate).
  assert (H1 : 0 <= n * math_atan_shield / math_pi).
  { rewrite E1. apply Qmult_le_0_compat; [discriminate|exact Hn0]. }
  assert (Hg : 1 <= (math_pi - 2 * math_atan_shield) / math_pi * n).
  { apply Qle_trans with ((math_pi - 2 * math_atan_shield) / math_pi * 7).
    - discriminate.
    - rewrite !(Qmult_comm ((math_pi - 2 * math_atan_shield) / math_pi)).
      apply Qmult_le_compat_r; [exact Hn|discriminate]. }
  assert (H2 : 0 <= n * (math_pi - math_atan_shield) / math_pi).
  { rewrite E2. rewrite <- E1. lra. }
  destruct (py_int_nonneg _ H1) as [-> _].
  destruct (py_int_nonneg _ H2) as [-> _].
  set (a := n * math_atan_shield / math_pi) in *.
  rewrite <- (Qfloor_Z (Qfloor a + 1)). apply Qfloor_resp_le.
  rewrite inject_Z_plus. change (inject_Z 1) with 1.
  pose proof (Qfloor_le a) as Hf. rewrite E2. rewrite <- E1. fold a. lra.
Qed.

(** X16.  With lo and hi the integer parts of length * theta / pi and
    length * (pi - theta) / pi, the right sector has lo readings, the front
    sector hi - lo and the left sector the remaining length - hi, where
    0 <= lo <= hi <= length; from six readings on the front sector is not
    empty. *)
Theorem sector_sizes (rs : list Q) :
  let lo := py_int (Qlen rs * math_atan_shield / math_pi) in
  let hi := py_int (Qlen rs * (math_pi - math_atan_shield) / math_pi) in
  let '(front, side_r, side_l) := sectors rs in
  (0 <= lo <= hi)%Z /\ (hi <= Z.of_nat (length rs))%Z /\
  Z.of_nat (length side_r) = lo /\
  Z.of_nat (length front) = (hi - lo)%Z /\
  Z.of_nat (length side_l) = (Z.of_nat (length rs) - hi)%Z /\
  ((6 <= length rs)%nat -> front <> []).
Proof.
  intros lo hi.
  destruct (sector_bounds (Qlen rs) (Qlen_nonneg rs)) as [Hlo Hhi].
  pose proof (sector_hi_bound (Qlen rs) (Z.of_nat (length rs))
                (Qlen_nonneg rs) (Qeq_refl _)) as Hhi'.
  fold lo in Hlo, Hhi. fold hi in Hhi, Hhi'.
  unfold sectors, py_slice, py_slice_from. fold lo hi.
  rewrite (slice_bound_nonneg (length rs) lo) by exact Hlo.
  rewrite (slice_bound_nonneg (length rs) hi) by lia.
  rewrite (slice_bound_nonneg (length rs) 0) by lia.
  change (Nat.min (Z.to_nat 0) (length rs)) with 0%nat.
  rewrite !Nat.min_l by lia.
  rewrite Nat.sub_0_r. cbn [skipn].
  split; [lia|]. split; [exact Hhi'|].
  rewrite !length_firstn, !length_skipn.
  split; [lia|]. split; [lia|]. split; [lia|].
  intros H6 Hnil.
  assert (Hlen : length (firstn (Z.to_nat hi - Z.to_nat lo)
                                (skipn (Z.to_nat lo) rs)) = 0%nat)
    by now rewrite Hnil.
  rewrite length_firstn, length_skipn in Hlen.
  assert (Heq : hi = lo) by lia.
  destruct (Nat.eq_dec (length rs) 6) as [E6|N6].
  - subst lo hi. unfold Qlen in Heq. rewrite E6 in Heq.
    vm_compute in Heq. discriminate.
  - assert (H7 : 7 <= Qlen rs).
    { unfold Qlen. change 7 with (inject_Z 7). rewrite <- Zle_Qle. lia. }
    pose proof (sector_gap (Qlen rs) H7) as Hg. fold lo hi in Hg. lia.
Qed.

(** ** What each callback writes *)

(** X4.  Each callback writes its own part of the node and nothing else, on
    every message and every outcome: edge_vectors_callback leaves the
    traffic status and the two hazard flags as they were,
    lidar_callback the traffic status, the multiplier and prev_turn, and
    traffic_status_callback everything but the traffic status, which
    becomes the message. *)
Theorem callback_frames (np_cos np_sin : Q -> Q) (numpy_score : bool) (self : LineFollower) :
  (forall message,
      let node := node_of (edge_vectors_callback self message) in
      traffic_status node = traffic_status self /\
      ramp_detected node = ramp_detected self /\
      obstacle_detected node = obstacle_detected self) /\
  (forall message,
      let node := node_of (lidar_callback np_cos np_sin numpy_score self message) in
      traffic_status node = traffic_status self /\
      speed_mult node = speed_mult self /\
      prev_turn node = prev_turn self) /\
  (forall message,
      let node := node_of (traffic_status_callback self message) in
      traffic_status node = message /\
      ramp_detected node = ramp_detected self /\
      obstacle_detected node = obstacle_detected self /\
      speed_mult node = speed_mult self /\
      prev_turn node = prev_turn self).
Proof.
  split; [|split]; intro message; cbv zeta.
  - unfold edge_vectors_callback.
    destruct (lane_deviation self message) as [fr|] eqn:E; cbn.
    + exact (lane_deviation_flags self message fr E).
    + auto.
  - unfold lidar_callback.
    destruct (obstacle_scan (preprocess message));
      destruct (MIN_POINTS_FOR_GROUND <=? length (preprocess message))%nat;
      cbn; auto.
  - cbn. auto 6.
Qed.

(** ** Runs of messages: who writes what *)

Section Runs.

Variables np_cos np_sin : Q -> Q.
Variable numpy_score : bool.

Lemma lidar_callback_returns (self : LineFollower) (message : LaserScan) :
  lidar_callback np_cos np_sin numpy_score self message
  = Returned (node_of (lidar_callback np_cos np_sin numpy_score self message)).
Proof.
  unfold lidar_callback.
  destruct (obstacle_scan (preprocess message)); reflexivity.
Qed.

(** The part of the node that a property [P] reads is kept by a run when each
    message of the run that can change it is excluded. *)
Lemma spin_keeps {A : Type} (get : LineFollower -> A) (writes : Message -> bool) :
  (forall self m, writes m = false ->
                  get (node_of (dispatch np_cos np_sin numpy_score self m)) = get self) ->
  forall ms self,
    forallb (fun m => negb (writes m)) ms = true ->
    get (spin np_cos np_sin numpy_score self ms) = get self.
Proof.
  intros Hstep ms. induction ms as [|m ms IH]; intros self Hms; [reflexivity|].
  cbn [forallb] in Hms. apply andb_true_iff in Hms as [Hm Hms].
  apply negb_true_iff in Hm. pose proof (Hstep self m Hm) as Hd.
  cbn [spin].
  destruct (dispatch np_cos np_sin numpy_score self m) as [node msg|node|node];
    cbn [node_of] in *; [rewrite IH by exact Hms| rewrite IH by exact Hms|];
    exact Hd.
Qed.

Lemma dispatch_hazard_flags (self : LineFollower) (m : Message) :
  is_scan m = false ->
  (ramp_detected (node_of (dispatch np_cos np_sin numpy_score self m)),
   obstacle_detected (node_of (dispatch np_cos np_sin numpy_score self m)))
  = (ramp_detected self, obstacle_detected self).
Proof.
  destruct m as [message|message|message]; cbn [is_scan dispatch];
    intro H; try discriminate.
  - unfold edge_vectors_callback.
    destruct (lane_deviation self message) as [fr|] eqn:E; cbn; [|reflexivity].
    destruct (lane_deviation_flags self message fr E) as (_ & -> & ->).
    reflexivity.
  - reflexivity.
Qed.

Lemma dispatch_traffic_status (self : LineFollower) (m : Message) :
  is_traffic_status m = false ->
  traffic_status (node_of (dispatch np_cos np_sin numpy_score self m)) = traffic_status self.
Proof.
  destruct m as [message|message|message]; cbn [is_traffic_status dispatch];
    intro H; try discriminate.
  - unfold edge_vectors_callback.
    destruct (lane_deviation self message) as [fr|] eqn:E; cbn; [|reflexivity].
    now destruct (lane_deviation_flags self message fr E) as (-> & _).
  - unfold lidar_callback.
    destruct (obstacle_scan (preprocess message));
      destruct (MIN_POINTS_FOR_GROUND <=? length (preprocess message))%nat;
      reflexivity.
Qed.

Lemma dispatch_esc (self : LineFollower) (m : Message) :
  is_edge_vectors m = false ->
  (speed_mult (node_of (dispatch np_cos np_sin numpy_score self m)),
   prev_turn (node_of (dispatch np_cos np_sin numpy_score self m)))
  = (speed_mult self, prev_turn self).
Proof.
  destruct m as [message|message|message]; cbn [is_edge_vectors dispatch];
    intro H; try discriminate.
  - reflexivity.
  - unfold lidar_callback.
    destruct (obstacle_scan (preprocess message));
      destruct (MIN_POINTS_FOR_GROUND <=? length (preprocess message))%nat;
      reflexivity.
Qed.

Lemma spin_hazard_flags (ms : list Message) (self : LineFollower) :
  forallb (fun m => negb (is_scan m)) ms = true ->
  (ramp_detected (spin np_cos np_sin numpy_score self ms),
   obstacle_detected (spin np_cos np_sin numpy_score self ms))
  = (ramp_detected self, obstacle_detected self).
Proof.
  apply (spin_keeps (fun s => (ramp_detected s, obstacle_detected s)) is_scan).
  apply dispatch_hazard_flags.
Qed.

(** X18.  Each part of the node has one writer.  Over any run of messages,
    the ramp and obstacle flags stay as they were when the run has no scan,
    the traffic status when it has no traffic-status message, and the
    multiplier and prev_turn when it has no edge-vector message. *)
Theorem one_writer (ms : list Message) (self : LineFollower) :
  let node := spin np_cos np_sin numpy_score self ms in
  (forallb (fun m => negb (is_scan m)) ms = true ->
   ramp_detected node = ramp_detected self /\
   obstacle_detected node = obstacle_detected self) /\
  (forallb (fun m => negb (is_traffic_status m)) ms = true ->
   traffic_status node = traffic_status self) /\
  (forallb (fun m => negb (is_edge_vectors m)) ms = true ->
   speed_mult node = speed_mult self /\ prev_turn node = prev_turn self).
Proof.
  cbv zeta. split; [|split]; intro H.
  - pose proof (spin_hazard_flags ms self H) as E. now inversion E.
  - apply (spin_keeps traffic_status is_traffic_status);
      [apply dispatch_traffic_status|exact H].
  - pose proof (spin_keeps (fun s => (speed_mult s, prev_turn s))
                           is_edge_vectors dispatch_esc ms self H) as E.
    now inversion E.
Qed.

Lemma emitted_speed_obstacle (self : LineFollower) (message : EdgeVectors) :
  obstacle_detected self = true ->
  ~ image_width message == 0 ->
  emitted_speed (edge_vectors_callback self message) = Some SPEED_25_PERCENT.
Proof.
  intros Ho Hw. destruct (lane_deviation_total self message Hw) as [fr Hfr].
  destruct (lane_deviation_flags self message fr Hfr) as (_ & _ & Hf).
  unfold edge_vectors_callback. rewrite Hfr. cbn. now rewrite Hf, Ho.
Qed.

(** X19.  Once a scan has set the obstacle flag, every command until the
    next scan has speed 0.25: whatever traffic-status and edge-vector
    messages arrive in between, an edge-vector message of non-zero width is
    answered with speed 0.25. *)
Theorem obstacle_slows_until_next_scan
        (self : LineFollower) (scan : LaserScan)
        (ms : list Message) (message : EdgeVectors) :
  obstacle_detected (node_of (lidar_callback np_cos np_sin numpy_score self scan)) = true ->
  forallb (fun m => negb (is_scan m)) ms = true ->
  ~ image_width message == 0 ->
  exists speed,
    emitted_speed
      (edge_vectors_callback (spin np_cos np_sin numpy_score self (OnScan scan :: ms)) message)
      = Some speed /\
    speed == 0.25.
Proof.
  intros Ho Hms Hw. exists SPEED_25_PERCENT. split; [|reflexivity].
  apply emitted_speed_obstacle; [|exact Hw].
  cbn [spin dispatch]. rewrite lidar_callback_returns. cbn [node_of].
  pose proof (spin_hazard_flags ms
                (node_of (lidar_callback np_cos np_sin numpy_score self scan)) Hms) as E.
  injection E as _ Hobs. rewrite Hobs. exact Ho.
Qed.

End Runs.

Lemma obstacle_slows_until_next_scan_witness :
  exists speed,
    emitted_speed
      (edge_vectors_callback
         (spin cos_poly sin_poly true init (OnScan scan_near :: lane_traffic))
         straight_centred)
      = Some speed /\
    speed == 0.25.
Proof.
  apply (obstacle_slows_until_next_scan cos_poly sin_poly true init scan_near
           lane_traffic straight_centred).
  - rewrite lidar_callback_obstacle. reflexivity.
  - reflexivity.
  - discriminate.
Defined.

(** ** Runs of one-edge messages *)

Lemma steady_curve_step (self : LineFollower) (message : EdgeVectors) :
  vector_count message = 1%Z ->
  ~ image_width message == 0 ->
  let turn :=
    (x (snd (vector_1 message)) - x (fst (vector_1 message)))
      / image_width message in
  prev_turn self <= turn ->
  exists msg,
    edge_vectors_callback self message
    = Published
        (with_prev_turn
           (with_speed_mult self
              (if Qltb 0.5 (speed_mult self) then speed_mult self - 0.03
               else speed_mult self))
           turn) msg.
Proof.
  intros Hc Hw turn Hp.
  pose proof (lane_deviation_curve self message Hc Hw) as Hfr.
  cbv zeta in Hfr. fold turn in Hfr.
  apply Qltb_ge in Hp as Hlt. apply Qle_bool_iff in Hp as Hle.
  rewrite Hlt, Hle in Hfr. cbn [andb] in Hfr.
  unfold edge_vectors_callback. rewrite Hfr. cbn [overrides f_self f_speed f_turn].
  destruct (Qltb 0.5 (speed_mult self)); [eauto|].
  destruct self; cbn. eauto.
Qed.

(** X9.  A steady curve brakes.  When the turn of a one-edge message is not
    smaller than prev_turn, a run of n copies of it never raises the
    multiplier: it goes down by 0.03 per message, n times in all unless it
    has come to 0.5 or below, where it stays; after the first message
    prev_turn is the turn. *)
Theorem steady_curve_brakes (np_cos np_sin : Q -> Q) (numpy_score : bool)
        (message : EdgeVectors) (n : nat) (self : LineFollower) :
  vector_count message = 1%Z ->
  ~ image_width message == 0 ->
  let turn :=
    (x (snd (vector_1 message)) - x (fst (vector_1 message)))
      / image_width message in
  prev_turn self <= turn ->
  let node := spin np_cos np_sin numpy_score self (repeat (OnEdgeVectors message) n) in
  speed_mult node <= speed_mult self /\
  (speed_mult node == speed_mult self - 0.03 * inject_Z (Z.of_nat n)
   \/ speed_mult node <= 0.5) /\
  ((1 <= n)%nat -> prev_turn node = turn).
Proof.
  intros Hc Hw turn. cbv zeta. revert self.
  induction n as [|n IH]; intros self Hp.
  - cbn [repeat spin]. split; [apply Qle_refl|]. split; [|lia].
    left. change (inject_Z (Z.of_nat 0)) with 0. ring.
  - cbn [repeat spin dispatch].
    destruct (steady_curve_step self message Hc Hw Hp) as [msg ->].
    cbn [node_of].
    match goal with |- context [spin _ _ _ ?s _] => set (self' := s) end.
    assert (Hp' : prev_turn self' <= turn) by apply Qle_refl.
    destruct (IH self' Hp') as (Hle & Hrun & Hprev).
    assert (Hm : speed_mult self'
                 = if Qltb 0.5 (speed_mult self) then speed_mult self - 0.03
                   else speed_mult self) by reflexivity.
    rewrite Nat2Z.inj_succ. unfold Z.succ. rewrite inject_Z_plus.
    change (inject_Z 1) with 1.
    destruct (Qltb 0.5 (speed_mult self)) eqn:E.
    + rewrite Hm in Hle, Hrun. split; [lra|]. split.
      * destruct Hrun as [Hrun|Hrun]; [left; rewrite Hrun; ring|now right].
      * intros _. destruct n as [|n]; [reflexivity|]. apply Hprev. lia.
    + apply Qltb_ge in E. rewrite Hm in Hle, Hrun. split; [exact Hle|]. split.
      * right. lra.
      * intros _. destruct n as [|n]; [reflexivity|]. apply Hprev. lia.
Qed.

Lemma steady_curve_brakes_witness :
  speed_mult (spin cos_poly sin_poly true init
                (repeat (OnEdgeVectors curve_upright) 5))
  == 1.0 - 0.03 * 5.
Proof.
  destruct (steady_curve_brakes cos_poly sin_poly true curve_upright 5 init)
    as (_ & [H|H] & _).
  - reflexivity.
  - discriminate.
  - discriminate.
  - rewrite H. reflexivity.
  - vm_compute in H. exfalso. apply H. reflexivity.
Defined.

(** ** The ramp check after a scan (lines 173 and 227) *)

Lemma scan_wall_score :
  r_squared cos_poly sin_poly (preprocess scan_wall) (angle_increment scan_wall)
  = 1.0.
Proof.
  unfold r_squared.
  destruct (cartesian cos_poly sin_poly (preprocess scan_wall)
                      (angle_increment scan_wall)) as [xs ys] eqn:E.
  vm_compute in E. injection E as <- <-.
  apply score_exact. apply (fit_exact _ _ 0 0); [reflexivity|discriminate|].
  apply sse_on_line.
  cbn [combine]. repeat (constructor; [reflexivity|]). constructor.
Qed.

(** C3.  The ramp check does not reassign the speed after a scan has set the
    ramp flag, where the score is a numpy.float64.  From the initial node, a
    stop sign and then a scan of a straight wall leave the stop sign set,
    ramp_detected a true numpy.bool_ and no obstacle; the next command has
    the stop-sign speed 0, not the ramp speed 0.5.  Where the score is a
    Python float the same messages give 0.5. *)
Theorem ramp_check_misses :
  let node := spin cos_poly sin_poly true init stop_then_wall in
  let node' := spin cos_poly sin_poly false init stop_then_wall in
  (stop_sign (traffic_status node) = true /\
   ramp_detected node = NumpyBool true /\
   truth (ramp_detected node) = true /\
   obstacle_detected node = false /\
   exists speed,
     emitted_speed (edge_vectors_callback node straight_centred) = Some speed /\
     speed == 0 /\ ~ speed == 0.5) /\
  (ramp_detected node' = PyBool true /\
   exists speed,
     emitted_speed (edge_vectors_callback node' straight_centred) = Some speed /\
     speed == 0.5).
Proof.
  assert (Hnode : forall numpy,
    let node := spin cos_poly sin_poly numpy init stop_then_wall in
    stop_sign (traffic_status node) = true /\
    ramp_detected node = greater numpy 1.0 R_SQUARED_THRESHOLD /\
    obstacle_detected node = false).
  { intro numpy. cbv zeta. unfold stop_then_wall.
    cbn [spin dispatch traffic_status_callback node_of].
    rewrite lidar_callback_returns. cbn [node_of].
    split; [|split].
    - unfold lidar_callback.
      destruct (obstacle_scan (preprocess scan_wall));
        destruct (MIN_POINTS_FOR_GROUND <=? length (preprocess scan_wall))%nat;
        reflexivity.
    - rewrite lidar_callback_ramp, scan_wall_score.
      assert (Hlen : (MIN_POINTS_FOR_GROUND <=? length (preprocess scan_wall))%nat
                     = true) by (vm_compute; reflexivity).
      now rewrite Hlen.
    - rewrite lidar_callback_obstacle.
      assert (Hscan : obstacle_scan (preprocess scan_wall) = None)
        by (vm_compute; reflexivity).
      now rewrite Hscan. }
  assert (Hw : ~ image_width straight_centred == 0) by discriminate.
  intros node node'. split.
  - destruct (Hnode true) as (Hs & Hr & Ho). fold node in Hs, Hr, Ho.
    change (greater true 1.0 R_SQUARED_THRESHOLD) with (NumpyBool true) in Hr.
    split; [exact Hs|]. split; [exact Hr|].
    split; [now rewrite Hr|]. split; [exact Ho|].
    destruct (lane_deviation_total node straight_centred Hw) as [fr Hfr].
    rewrite (emitted_speed_overrides node straight_centred fr Hfr).
    rewrite Ho, Hr, Hs. cbn [is_True].
    exists SPEED_MIN. split; [reflexivity|]. split; [reflexivity|discriminate].
  - destruct (Hnode false) as (Hs & Hr & Ho). fold node' in Hs, Hr, Ho.
    change (greater false 1.0 R_SQUARED_THRESHOLD) with (PyBool true) in Hr.
    split; [exact Hr|].
    destruct (lane_deviation_total node' straight_centred Hw) as [fr Hfr].
    rewrite (emitted_speed_overrides node' straight_centred fr Hfr).
    rewrite Ho, Hr. cbn [is_True].
    exists SPEED_50_PERCENT. split; reflexivity.
Qed.
